(** * Expense forecaster: a shallow embedding of [expense_predictor_model.py]

  The development follows the class [ExpensePredictor]: the calendar
  features of [create_features], the two input formats of [prepare_data],
  the row threshold and the [try] block of [train], the guards of
  [predict_category] and [predict_next_month], and the persistence pair
  [save_model] / [load_model].

  Numbers that are floats in the program (amounts, metrics, importances,
  confidences) are rationals here; the integer feature columns are [Z].
  The machine-learning and serialisation libraries are not part of the
  repository: the estimator, the split and the metrics are fields of an
  interface record, and the file system is a finite map from paths to the
  pickled dictionary. *)

From Stdlib Require Import ZArith QArith Qabs Lqa Ascii String List Lia Permutation.
From Stdlib Require Import Sorted OrdersEx DecimalString.
From stdpp Require Import gmap strings.
Import ListNotations.

Open Scope string_scope.

(** ** Python built-ins used by the module *)

Module Py.

(** [max(a, b)]: the first argument unless the second is strictly greater. *)
Definition max (a b : Q) : Q := if QMicromega.Qlt_bool a b then b else a.

(** [min(a, b)]: the first argument unless the second is strictly smaller. *)
Definition min (a b : Q) : Q := if QMicromega.Qlt_bool b a then b else a.

(** [x > y] on numbers. *)
Definition gt (x y : Q) : bool := QMicromega.Qlt_bool y x.

(** [sum(l)] and [np.mean(l)]. On the empty vector the quotient is 0 here
    and [nan] in the program; both leave [max(50, .)] at 50. *)
Definition sum (l : list Q) : Q := fold_right Qplus 0%Q l.

Definition mean (l : list Q) : Q := (sum l / inject_Z (Z.of_nat (length l)))%Q.

(** A call either returns a value or raises; [str(e)] is the message. *)
Inductive outcome (A : Type) : Type :=
| Returns (a : A)
| Raises (msg : string).
Arguments Returns {A} a.
Arguments Raises {A} msg.

End Py.

(** ** Calendar fields read through [df['date'].dt] *)

Module Calendar.

Local Open Scope Z_scope.

Record Date : Type := mkDate { year : Z; month_of : Z; day : Z }.

(** Days since 1970-01-01 in the proleptic Gregorian calendar. *)
Definition days_from_civil (d : Date) : Z :=
  let y := if month_of d <=? 2 then year d - 1 else year d in
  let era := y / 400 in
  let yoe := y - era * 400 in
  let mp := if month_of d >? 2 then month_of d - 3 else month_of d + 9 in
  let doy := (153 * mp + 2) / 5 + day d - 1 in
  let doe := yoe * 365 + yoe / 4 - yoe / 100 + doy in
  era * 146097 + doe - 719468.

(** [dt.weekday]: Monday is 0, Sunday is 6. *)
Definition weekday (d : Date) : Z := (days_from_civil d + 3) mod 7.

(** [dt.quarter]. *)
Definition quarter (d : Date) : Z := (month_of d - 1) / 3 + 1.

Definition of_bool (b : bool) : Z := if b then 1 else 0.

End Calendar.

(** ** [LabelEncoder]: sorted distinct labels, a label's code is its rank *)

Module LabelEncoder.

Local Open Scope Z_scope.

(** Insertion into a strictly increasing list, dropping a repeated label. *)
Fixpoint insert_label (x : string) (l : list string) : list string :=
  match l with
  | [] => [x]
  | y :: t =>
      if String.eqb x y then l
      else if String.ltb x y then x :: l
      else y :: insert_label x t
  end.

(** [fit]: [classes_ = np.unique(labels)]. *)
Definition fit (labels : list string) : list string :=
  fold_right insert_label [] labels.

Definition mem (x : string) (classes : list string) : bool :=
  existsb (String.eqb x) classes.

(** Rank of a label in [classes_]. *)
Fixpoint index_of (x : string) (classes : list string) : Z :=
  match classes with
  | [] => 0
  | y :: t => if String.eqb x y then 0 else 1 + index_of x t
  end.

End LabelEncoder.

(** ** [os.path.dirname] on POSIX paths *)

Module OsPath.

Definition is_sep (c : ascii) : bool := Ascii.eqb c "/"%char.

(** [p[:p.rfind('/') + 1]], or [None] when [p] holds no separator. *)
Fixpoint head_upto_last_sep (p : string) : option string :=
  match p with
  | EmptyString => None
  | String c r =>
      match head_upto_last_sep r with
      | Some h => Some (String c h)
      | None => if is_sep c then Some (String c EmptyString) else None
      end
  end.

Fixpoint all_sep (p : string) : bool :=
  match p with
  | EmptyString => true
  | String c r => is_sep c && all_sep r
  end.

(** [head.rstrip('/')]. *)
Fixpoint rstrip_sep (p : string) : string :=
  match p with
  | EmptyString => EmptyString
  | String c r =>
      match rstrip_sep r with
      | EmptyString => if is_sep c then EmptyString else String c EmptyString
      | r' => String c r'
      end
  end.

Definition dirname (p : string) : string :=
  let head := match head_upto_last_sep p with Some h => h | None => "" end in
  if negb (String.eqb head "") && negb (all_sep head) then rstrip_sep head else head.

(** [os.makedirs(d, exist_ok=True)] on a file system in which every
    directory can be created: the only fault left is the empty path. *)
Definition makedirs (d : string) : Py.outcome unit :=
  if String.eqb d "" then Py.Raises "[Errno 2] No such file or directory: ''"
  else Py.Returns tt.

End OsPath.

(** ** The estimator library, as the module uses it

    [fit] mutates the estimator object in place, so it returns the object
    as the call left it together with the exception message when it raised.
    [train_test_split] is called with at least ten rows and fixed
    [test_size] and [random_state]; it is a function of its two inputs. *)

Record Sklearn : Type := {
  Estimator : Type;
  RandomForestRegressor : Estimator;
  fit : Estimator -> list (list Z) -> list Q -> Estimator * option string;
  predict : Estimator -> list (list Z) -> Py.outcome (list Q);
  feature_importances_ : Estimator -> Py.outcome (list Q);
  train_test_split :
    list (list Z) -> list Q -> (list (list Z) * list (list Z)) * (list Q * list Q);
  mean_absolute_error : list Q -> list Q -> Py.outcome Q;
  r2_score : list Q -> list Q -> Py.outcome Q;
  format_2f : Q -> string;
  format_3f : Q -> string
}.

(** ** Input records and data frames *)

(** One input mapping. Every record carries [date] and [category]; which of
    the amount keys are present tells the two input formats apart. A missing
    key is a missing cell of the frame ([NaN]). *)
Record RawRecord : Type := {
  date : Calendar.Date;
  category : string;
  amount : option Q;
  total_expense : option Q;
  total_income : option Q;
  transaction_type : option string
}.

(** A row of the frame restricted to [date, category, amount, transaction_type]. *)
Record Row : Type := {
  row_date : Calendar.Date;
  row_category : string;
  row_amount : Q;
  row_type : option string
}.

(** A row after [create_features]. *)
Record FeatureRow : Type := {
  source : Row;
  month : Z;
  weekday : Z;
  is_weekend : Z;
  quarter : Z;
  day_of_month : Z;
  is_month_start : Z;
  is_month_end : Z;
  category_encoded : Z
}.

(** [col in df.columns] for an optional key. *)
Definition has_column {A : Type} (key : RawRecord -> option A) (data : list RawRecord) : bool :=
  existsb (fun r => match key r with Some _ => true | None => false end) data.

(** [df[df[key] > 0]] followed by [amount = df[key]] and the constant
    [transaction_type], projected on the four kept columns. A missing cell
    compares false and is dropped. *)
Definition side (key : RawRecord -> option Q) (direction : string) (r : RawRecord) : option Row :=
  match key r with
  | Some q =>
      if Py.gt q 0
      then Some {| row_date := date r; row_category := category r;
                   row_amount := q; row_type := Some direction |}
      else None
  | None => None
  end.

(** A row of an input that already has an [amount] column. A row whose
    [amount] cell is missing cannot pass [df['amount'] > 0]; it is left out
    when the frame is read. *)
Definition plain_row (r : RawRecord) : option Row :=
  match amount r with
  | Some q =>
      Some {| row_date := date r; row_category := category r;
              row_amount := q; row_type := transaction_type r |}
  | None => None
  end.

(** The value of a feature column by name; [None] is a [KeyError]. *)
Definition column (name : string) (r : FeatureRow) : option Z :=
  if String.eqb name "month" then Some (month r)
  else if String.eqb name "weekday" then Some (weekday r)
  else if String.eqb name "is_weekend" then Some (is_weekend r)
  else if String.eqb name "quarter" then Some (quarter r)
  else if String.eqb name "day_of_month" then Some (day_of_month r)
  else if String.eqb name "is_month_start" then Some (is_month_start r)
  else if String.eqb name "is_month_end" then Some (is_month_end r)
  else if String.eqb name "category_encoded" then Some (category_encoded r)
  else None.

(** The first column name of [names] that the frame lacks. *)
Definition missing_column (names : list string) : option string :=
  find (fun name =>
          negb (existsb (String.eqb name)
                  ["month"; "weekday"; "is_weekend"; "quarter"; "day_of_month";
                   "is_month_start"; "is_month_end"; "category_encoded"])) names.

Definition select_row (names : list string) (r : FeatureRow) : list Z :=
  flat_map (fun name => match column name r with Some v => [v] | None => [] end) names.

(** [df[names]]: the listed columns in the listed order. *)
Definition select_columns (names : list string) (df : list FeatureRow)
  : Py.outcome (list (list Z)) :=
  match missing_column names with
  | Some name => Py.Raises name
  | None => Py.Returns (map (select_row names) df)
  end.

(** ** The forecaster *)

(** What [prepare_data] hands back: [(None, None)], an escaping [KeyError],
    or the pair [(X, y)]. *)
Inductive Prepared : Type :=
| NoneNone
| RaisesKeyError (name : string)
| Xy (X : list (list Z)) (y : list Q).

(** The pickled dictionary; a key may be absent in a file written by
    something other than [save_model]. *)
Record ModelData (E : Type) : Type := {
  md_model : option E;
  md_category_encoder : option (list string);
  md_feature_columns : option (list string);
  md_is_fitted : option bool
}.
Arguments md_model {E} _.
Arguments md_category_encoder {E} _.
Arguments md_feature_columns {E} _.
Arguments md_is_fitted {E} _.

Inductive File (E : Type) : Type :=
| Pickled (d : ModelData E)
| Unreadable (msg : string).
Arguments Pickled {E} d.
Arguments Unreadable {E} msg.

Section Forecaster.

Context (L : Sklearn).

(** The attributes of an [ExpensePredictor] object. [category_encoder] is
    the encoder's [classes_]; the program reads it only behind [is_fitted],
    so an encoder that was never fitted is the empty list. *)
Record ExpensePredictor : Type := {
  model : Estimator L;
  category_encoder : list string;
  feature_columns : list string;
  is_fitted : bool
}.

Definition set_model (m : Estimator L) (s : ExpensePredictor) : ExpensePredictor :=
  {| model := m; category_encoder := category_encoder s;
     feature_columns := feature_columns s; is_fitted := is_fitted s |}.

Definition set_category_encoder (c : list string) (s : ExpensePredictor) : ExpensePredictor :=
  {| model := model s; category_encoder := c;
     feature_columns := feature_columns s; is_fitted := is_fitted s |}.

Definition set_feature_columns (c : list string) (s : ExpensePredictor) : ExpensePredictor :=
  {| model := model s; category_encoder := category_encoder s;
     feature_columns := c; is_fitted := is_fitted s |}.

Definition set_is_fitted (b : bool) (s : ExpensePredictor) : ExpensePredictor :=
  {| model := model s; category_encoder := category_encoder s;
     feature_columns := feature_columns s; is_fitted := b |}.

(** [__init__]. *)
Definition init : ExpensePredictor :=
  {| model := RandomForestRegressor L;
     category_encoder := [];
     feature_columns :=
       ["month"; "weekday"; "is_weekend"; "quarter"; "day_of_month";
        "is_month_start"; "is_month_end"; "category_encoded"];
     is_fitted := false |}.

(** The time-based columns of one row, with the category code [code]. *)
Definition featurize (code : Z) (r : Row) : FeatureRow :=
  let d := row_date r in
  let wd := Calendar.weekday d in
  {| source := r;
     month := Calendar.month_of d;
     weekday := wd;
     is_weekend := Calendar.of_bool ((wd =? 5)%Z || (wd =? 6)%Z);
     quarter := Calendar.quarter d;
     day_of_month := Calendar.day d;
     is_month_start := Calendar.of_bool (Calendar.day d <=? 7)%Z;
     is_month_end := Calendar.of_bool (Calendar.day d >=? 24)%Z;
     category_encoded := code |}.

(** [create_features]: while [is_fitted] is false the encoder is fitted on
    the frame's categories (and so replaced); otherwise the current classes
    are used and a category outside them is coded [-1]. *)
Definition create_features (s : ExpensePredictor) (df : list Row)
  : ExpensePredictor * list FeatureRow :=
  if negb (is_fitted s) then
    let classes := LabelEncoder.fit (map row_category df) in
    (set_category_encoder classes s,
     map (fun r => featurize (LabelEncoder.index_of (row_category r) classes) r) df)
  else
    let known_categories := category_encoder s in
    (s,
     map (fun r =>
            featurize
              (if LabelEncoder.mem (row_category r) known_categories
               then LabelEncoder.index_of (row_category r) known_categories
               else (-1)%Z) r) df).

(** The frame before the feature step: [None] is an early [(None, None)]. *)
Definition normalize (data : list RawRecord) : option (list Row) :=
  match data with
  | [] => None
  | _ =>
      let frame :=
        if has_column total_expense data && has_column total_income data then
          let expense_data : list Row := omap (side total_expense "expense") data in
          let income_data : list Row := omap (side total_income "income") data in
          let all_data :=
            app (match expense_data with [] => [] | _ => [expense_data] end)
                (match income_data with [] => [] | _ => [income_data] end) in
          match all_data with
          | [] => None
          | _ => Some (concat all_data)
          end
        else if has_column amount data then Some (omap plain_row data)
        else None in
      match frame with
      | None => None
      | Some df =>
          match List.filter (fun r => Py.gt (row_amount r) 0) df with
          | [] => None
          | usable => Some usable
          end
      end
  end.

(** [prepare_data]. *)
Definition prepare_data (s : ExpensePredictor) (data : list RawRecord)
  : ExpensePredictor * Prepared :=
  match normalize data with
  | None => (s, NoneNone)
  | Some df =>
      let (s1, features) := create_features s df in
      match select_columns (feature_columns s1) features with
      | Py.Raises name => (s1, RaisesKeyError name)
      | Py.Returns X => (s1, Xy X (map row_amount df))
      end
  end.

Definition training_failed (e : string) : Py.outcome (bool * string) :=
  Py.Returns (false, "Training failed: " ++ e).

(** [train]. [prepare_data] runs outside the [try] block, so its
    [KeyError] escapes; everything from the split on is inside it. *)
Definition train (s : ExpensePredictor) (data : list RawRecord)
  : ExpensePredictor * Py.outcome (bool * string) :=
  let (s1, prepared) := prepare_data s data in
  match prepared with
  | RaisesKeyError name => (s1, Py.Raises name)
  | NoneNone => (s1, Py.Returns (false, "No valid data for training"))
  | Xy X y =>
      if (length X <? 10)%nat then
        (s1, Py.Returns
               (false, "Insufficient data for training (minimum 10 samples required)"))
      else
        let '((X_train, X_test), (y_train, y_test)) := train_test_split L X y in
        let (m, raised) := fit L (model s1) X_train y_train in
        let s2 := set_model m s1 in
        match raised with
        | Some e => (s2, training_failed e)
        | None =>
            let s3 := set_is_fitted true s2 in
            match predict L m X_test with
            | Py.Raises e => (s3, training_failed e)
            | Py.Returns y_pred =>
                match mean_absolute_error L y_test y_pred with
                | Py.Raises e => (s3, training_failed e)
                | Py.Returns mae =>
                    match r2_score L y_test y_pred with
                    | Py.Raises e => (s3, training_failed e)
                    | Py.Returns r2 =>
                        (s3, Py.Returns
                               (true,
                                "Model trained successfully. MAE: " ++ format_2f L mae
                                  ++ ", R²: " ++ format_3f L r2))
                    end
                end
            end
        end
  end.

(** [predict_category]. [now] is the reading of [datetime.now()]; only its
    calendar date enters the features. Every exception raised inside the
    [try] block ends in [return 0, 0]. *)
Definition predict_category (s : ExpensePredictor) (now : Calendar.Date)
  (category : string) (transaction_type : string) (target_month : option Z) : Q * Q :=
  if negb (is_fitted s) then (0, 0)%Q
  else
    let target_month :=
      match target_month with
      | None => Calendar.month_of now
      | Some m => m
      end in
    if negb (LabelEncoder.mem category (category_encoder s)) then (0, 0)%Q
    else
      let prediction_data :=
        [{| row_date := now; row_category := category;
            row_amount := 100; row_type := Some transaction_type |}] in
      let (_, prediction_data) := create_features s prediction_data in
      let prediction_data :=
        map (fun r =>
               {| source := source r; month := target_month; weekday := weekday r;
                  is_weekend := is_weekend r; quarter := quarter r;
                  day_of_month := day_of_month r; is_month_start := is_month_start r;
                  is_month_end := is_month_end r;
                  category_encoded := category_encoded r |}) prediction_data in
      match select_columns (feature_columns s) prediction_data with
      | Py.Raises _ => (0, 0)%Q
      | Py.Returns X_pred =>
          match predict L (model s) X_pred with
          | Py.Raises _ => (0, 0)%Q
          | Py.Returns [] => (0, 0)%Q
          | Py.Returns (prediction :: _) =>
              match feature_importances_ L (model s) with
              | Py.Raises _ => (0, 0)%Q
              | Py.Returns feature_importance =>
                  let confidence :=
                    Py.min 95 (Py.max 50 (Py.mean feature_importance * 100)) in
                  (Py.max 0 prediction, confidence)
              end
          end
      end.

(** One entry of the list returned by [predict_next_month]. *)
Record Prediction : Type := {
  p_category : string;
  predicted_expense : Q;
  predicted_income : Q;
  expense_confidence : Q;
  income_confidence : Q;
  p_transaction_type : string
}.

(** [datetime.now().month + 1 if datetime.now().month < 12 else 1]. *)
Definition next_month_of (now : Calendar.Date) : Z :=
  if (Calendar.month_of now <? 12)%Z then (Calendar.month_of now + 1)%Z else 1%Z.

(** The body of the [for] loop: the list after handling [category]. *)
Definition predict_step (s : ExpensePredictor) (now : Calendar.Date) (next_month : Z)
  (predictions : list Prediction) (category : string) : list Prediction :=
  let (expense_pred, expense_conf) :=
    predict_category s now category "expense" (Some next_month) in
  let (income_pred, income_conf) :=
    predict_category s now category "income" (Some next_month) in
  if Py.gt expense_pred 0 || Py.gt income_pred 0 then
    app predictions
      [{| p_category := category;
          predicted_expense := expense_pred;
          predicted_income := income_pred;
          expense_confidence := expense_conf;
          income_confidence := income_conf;
          p_transaction_type :=
            if Py.gt expense_pred income_pred then "expense" else "income" |}]
  else predictions.

(** [predict_next_month]. The clock readings of one call are taken to fall
    on the same calendar date [now]. *)
Definition predict_next_month (s : ExpensePredictor) (now : Calendar.Date)
  (categories : list string) : list Prediction :=
  if negb (is_fitted s) then []
  else
    let next_month := next_month_of now in
    fold_left (predict_step s now next_month) categories [].

(** The dictionary written by [save_model]. *)
Definition model_data (s : ExpensePredictor) : ModelData (Estimator L) :=
  {| md_model := Some (model s);
     md_category_encoder := Some (category_encoder s);
     md_feature_columns := Some (feature_columns s);
     md_is_fitted := Some (is_fitted s) |}.

(** [save_model]; [fs] maps a path to the file stored there. The file
    system is one in which every directory can be created and every path
    written, and paths are told apart as strings: of the faults of the
    [try] block only the empty directory part of a bare file name is left. *)
Definition save_model (s : ExpensePredictor) (filepath : string)
  (fs : gmap string (File (Estimator L)))
  : gmap string (File (Estimator L)) * (bool * string) :=
  if negb (is_fitted s) then (fs, (false, "Model not trained yet"))
  else
    match OsPath.makedirs (OsPath.dirname filepath) with
    | Py.Raises e => (fs, (false, "Failed to save model: " ++ e))
    | Py.Returns _ =>
        (<[filepath := Pickled (model_data s)]> fs, (true, "Model saved to " ++ filepath))
    end.

Definition load_failed (e : string) : bool * string :=
  (false, "Failed to load model: " ++ e).

(** [load_model]: the four attributes are assigned one after the other, so
    a dictionary that lacks a key leaves the earlier assignments in place. *)
Definition load_model (s : ExpensePredictor) (filepath : string)
  (fs : gmap string (File (Estimator L))) : ExpensePredictor * (bool * string) :=
  match fs !! filepath with
  | None => (s, (false, "Model file not found"))
  | Some (Unreadable e) => (s, load_failed e)
  | Some (Pickled d) =>
      match md_model d with
      | None => (s, load_failed "'model'")
      | Some m =>
          let s1 := set_model m s in
          match md_category_encoder d with
          | None => (s1, load_failed "'category_encoder'")
          | Some c =>
              let s2 := set_category_encoder c s1 in
              match md_feature_columns d with
              | None => (s2, load_failed "'feature_columns'")
              | Some f =>
                  let s3 := set_feature_columns f s2 in
                  match md_is_fitted d with
                  | None => (s3, load_failed "'is_fitted'")
                  | Some b => (set_is_fitted b s3, (true, "Model loaded successfully"))
                  end
              end
          end
      end
  end.

End Forecaster.

Arguments model {L} _.
Arguments category_encoder {L} _.
Arguments feature_columns {L} _.
Arguments is_fitted {L} _.

(** ** A small instance of the library interface

    A regressor that predicts the mean of its training targets and weighs
    its eight inputs equally. Like the real one, whose [fit] converts the
    targets to 64-bit floats, it cannot take an integer target of 2^1024 or
    more: [fit] then raises and leaves the estimator as it was. It is used
    to run the forecaster on concrete inputs. *)

Module Toy.

(** From 2^1024 on, an integer is too large to convert to a 64-bit float. *)
Definition limit : Q := inject_Z (2 ^ 1024).

Definition toy_fit (m : option Q) (X : list (list Z)) (y : list Q) : option Q * option string :=
  if existsb (fun v => Qle_bool limit v) y
  then (m, Some "int too large to convert to float")
  else (Some (Qred (Py.mean y)), None).

Definition toy_predict (m : option Q) (X : list (list Z)) : Py.outcome (list Q) :=
  match m with
  | None => Py.Raises "This RandomForestRegressor instance is not fitted yet."
  | Some mu => Py.Returns (map (fun _ => mu) X)
  end.

Definition toy_importances (m : option Q) : Py.outcome (list Q) :=
  match m with
  | None => Py.Raises "This RandomForestRegressor instance is not fitted yet."
  | Some _ => Py.Returns (repeat (1 # 8)%Q 8)
  end.

(** The last fifth of the rows (rounded up) is held out. *)
Definition toy_split (X : list (list Z)) (y : list Q)
  : (list (list Z) * list (list Z)) * (list Q * list Q) :=
  let n := length X in
  let n_train := (n - (n + 4) / 5)%nat in
  ((firstn n_train X, skipn n_train X), (firstn n_train y, skipn n_train y)).

Fixpoint abs_errors (y_true y_pred : list Q) : list Q :=
  match y_true, y_pred with
  | a :: t, b :: u => Qabs (a - b) :: abs_errors t u
  | _, _ => []
  end.

Definition toy_mae (y_true y_pred : list Q) : Py.outcome Q :=
  Py.Returns (Qred (Py.mean (abs_errors y_true y_pred))).

Definition toy_r2 (y_true y_pred : list Q) : Py.outcome Q :=
  let mu := Py.mean y_true in
  let ss_res := Py.sum (map (fun e => e * e)%Q (abs_errors y_true y_pred)) in
  let ss_tot := Py.sum (map (fun a => (a - mu) * (a - mu))%Q y_true) in
  if Qeq_bool ss_tot 0
  then Py.Returns (if Qeq_bool ss_res 0 then 1 else 0)%Q
  else Py.Returns (Qred (1 - ss_res / ss_tot)).

(** The integer part only; enough to tell two messages apart. *)
Definition toy_format (q : Q) : string :=
  NilZero.string_of_int (Z.to_int (Qnum q / Z.pos (Qden q))).

Definition lib : Sklearn :=
  {| Estimator := option Q;
     RandomForestRegressor := None;
     fit := toy_fit;
     predict := toy_predict;
     feature_importances_ := toy_importances;
     train_test_split := toy_split;
     mean_absolute_error := toy_mae;
     r2_score := toy_r2;
     format_2f := toy_format;
     format_3f := toy_format |}.

(** A paired-format record. *)
Definition paired (d : Calendar.Date) (c : string) (e i : Q) : RawRecord :=
  {| date := d; category := c; amount := None;
     total_expense := Some e; total_income := Some i; transaction_type := None |}.

(** [n] expense records of [v] in category [c], on consecutive days of March 2024. *)
Fixpoint expenses (n : nat) (c : string) (v : Q) : list RawRecord :=
  match n with
  | O => []
  | S k => paired (Calendar.mkDate 2024 3 (Z.of_nat n)) c v 0 :: expenses k c v
  end.

Definition today : Calendar.Date := Calendar.mkDate 2024 12 15.

(** A forecaster trained once on ten [Food] expenses. *)
Definition trained : ExpensePredictor lib := fst (train lib (init lib) (expenses 10 "Food" 500)).

(** The two records of the mixed income/expense example. *)
Definition mixed : list RawRecord :=
  [paired (Calendar.mkDate 2024 3 1) "Salary" 0 50000;
   paired (Calendar.mkDate 2024 3 2) "Food" 500 0].

End Toy.

(** ** Inputs used to run the forecaster on *)

Module Sample.

(** A record in the normalized format. *)
Definition plain (d : Calendar.Date) (c : string) (a : Q) (t : string) : RawRecord :=
  {| date := d; category := c; amount := Some a;
     total_expense := None; total_income := None; transaction_type := Some t |}.

Definition food_row : Row :=
  {| row_date := Calendar.mkDate 2024 3 2; row_category := "Food";
     row_amount := 500; row_type := Some "expense" |}.

Definition salary_row : Row :=
  {| row_date := Calendar.mkDate 2024 3 1; row_category := "Salary";
     row_amount := 50000; row_type := Some "income" |}.

(** [food_row] after the feature step of a forecaster that knows [Food] and [Salary]. *)
Definition food_features : FeatureRow :=
  {| source := food_row; month := 3; weekday := 5; is_weekend := 1; quarter := 1;
     day_of_month := 2; is_month_start := 1; is_month_end := 0; category_encoded := 0 |}.

(** The entry [predict_next_month] returns for [Food] from [Toy.trained]. *)
Definition food_entry : Prediction :=
  {| p_category := "Food"; predicted_expense := 500; predicted_income := 500;
     expense_confidence := 50; income_confidence := 50;
     p_transaction_type := "income" |}.

End Sample.

Module Faulty.

(** The library of [Toy] with a metric that rejects its input: [fit]
    returns, the evaluation that follows raises. *)
Definition lib : Sklearn :=
  {| Estimator := Estimator Toy.lib;
     RandomForestRegressor := RandomForestRegressor Toy.lib;
     fit := fit Toy.lib;
     predict := predict Toy.lib;
     feature_importances_ := feature_importances_ Toy.lib;
     train_test_split := train_test_split Toy.lib;
     mean_absolute_error := fun _ _ => Py.Raises "Input contains NaN.";
     r2_score := r2_score Toy.lib;
     format_2f := format_2f Toy.lib;
     format_3f := format_3f Toy.lib |}.

End Faulty.

(** ** [create_sample_model] and its caller [load_ml_model] *)

(** [date + timedelta(days=n)]. *)
Module Timedelta.

Local Open Scope Z_scope.

(** The civil date of a day count since 1970-01-01. *)
Definition civil_from_days (z0 : Z) : Calendar.Date :=
  let z := z0 + 719468 in
  let era := z / 146097 in
  let doe := z - era * 146097 in
  let yoe := (doe - doe / 1460 + doe / 36524 - doe / 146096) / 365 in
  let y := yoe + era * 400 in
  let doy := doe - (365 * yoe + yoe / 4 - yoe / 100) in
  let mp := (5 * doy + 2) / 153 in
  let d := doy - (153 * mp + 2) / 5 + 1 in
  let m := if mp <? 10 then mp + 3 else mp - 9 in
  Calendar.mkDate (if m <=? 2 then y + 1 else y) m d.

Definition add_days (d : Calendar.Date) (n : Z) : Calendar.Date :=
  civil_from_days (Calendar.days_from_civil d + n).

End Timedelta.

(** What one pass of the sampling loop draws: the value of
    [np.random.randint(0, 180)], the element [np.random.choice] returns,
    and the value in [0, 1) that [np.random.uniform(lo, hi)] scales to
    [lo + (hi - lo) * unit]. *)
Record Draw : Type := {
  day_offset : Z;
  choice : string;
  unit_sample : Q
}.

Definition categories : list string :=
  ["Salary"; "Family Support"; "Loan Taken"; "Debt Payment"; "Food";
   "Miscellaneous Spending"; "Cashback"; "Subscription"; "Petrol";
   "Recharge"; "Other Income"; "Festival Expense"; "Outing with Friends";
   "Charity"; "Face & Hair Product"; "Utility"; "Groceries"; "Cloths";
   "Entertainment"; "Bank charge"; "Travel"; "Saving/Investment"].

Definition uniform (lo hi unit : Q) : Q := (lo + (hi - lo) * unit)%Q.

(** The amount and the direction the loop gives to a category. *)
Definition sample_amount (category : string) (unit : Q) : Q * string :=
  if LabelEncoder.mem category ["Salary"; "Family Support"]
  then (uniform 20000 80000 unit, "income")
  else if LabelEncoder.mem category ["Debt Payment"; "Saving/Investment"]
  then (uniform 5000 25000 unit, "expense")
  else if LabelEncoder.mem category ["Food"; "Groceries"; "Utility"]
  then (uniform 100 3000 unit, "expense")
  else (uniform 50 5000 unit, "expense").

(** The dictionary appended by one pass of the loop. *)
Definition sample_record (start_date : Calendar.Date) (d : Draw) : RawRecord :=
  let (value, direction) := sample_amount (choice d) (unit_sample d) in
  {| date := Timedelta.add_days start_date (day_offset d);
     category := choice d;
     amount := None;
     total_expense := Some (if String.eqb direction "expense" then value else 0%Q);
     total_income := Some (if String.eqb direction "income" then value else 0%Q);
     transaction_type := Some direction |}.

(** The 500 sample transactions; [rng i] is what pass [i] draws. *)
Definition sample_data (now : Calendar.Date) (rng : nat -> Draw) : list RawRecord :=
  let start_date := Timedelta.add_days now (-180) in
  map (fun i => sample_record start_date (rng i)) (seq 0 500).

Definition model_path : string := "model/expense_predictor.joblib".

Section SampleModel.

Context (L : Sklearn).

(** [create_sample_model]: the boolean it returns, or the exception that
    escapes it; the messages it prints are left out. On the file system of
    [save_model] the directory [model] can always be created and the file
    written, so after a successful [train] the call returns [True]. *)
Definition create_sample_model (now : Calendar.Date) (rng : nat -> Draw)
  (fs : gmap string (File (Estimator L)))
  : gmap string (File (Estimator L)) * Py.outcome bool :=
  let predictor := init L in
  let (predictor, result) := train L predictor (sample_data now rng) in
  match result with
  | Py.Raises e => (fs, Py.Raises e)
  | Py.Returns (success, _) =>
      if success then
        match OsPath.makedirs "model" with
        | Py.Raises e => (fs, Py.Raises e)
        | Py.Returns _ =>
            let (fs, saved) := save_model L predictor model_path fs in
            (fs, Py.Returns (fst saved))
        end
      else (fs, Py.Returns false)
  end.

(** [load_ml_model] of the application, without its display calls and its
    cache: the forecaster it returns, if any, and the file system it leaves.
    One forecaster object goes through both [load_model] calls. *)
Definition load_ml_model (model_available : bool) (now : Calendar.Date)
  (rng : nat -> Draw) (fs : gmap string (File (Estimator L)))
  : gmap string (File (Estimator L)) * option (ExpensePredictor L) :=
  if negb model_available then (fs, None)
  else
    let model := init L in
    let (model, loaded) :=
      match fs !! model_path with
      | Some _ =>
          let (model, result) := load_model L model model_path fs in
          (model, fst result)
      | None => (model, false)
      end in
    if loaded then (fs, Some model)
    else
      match create_sample_model now rng fs with
      | (fs, Py.Returns true) =>
          let (model, result) := load_model L model model_path fs in
          if fst result then (fs, Some model) else (fs, None)
      | (fs, _) => (fs, None)
      end.

End SampleModel.

Module SampleRun.

(** A generator that walks through the days and the categories. *)
Definition rng (i : nat) : Draw :=
  {| day_offset := Z.of_nat (i mod 180);
     choice := nth (i mod 22) categories "Food";
     unit_sample := 1 # 2 |}.

End SampleRun.

(** ** The prediction page of the application ([show_ai_predictions])

    Only the data that reaches the forecaster and what comes back from it
    is kept: the stored entries, the records built from them, the retraining
    call and the totals of the summary. *)

(** An entry of [bank_expenses] or [cash_expenses]. *)
Record Transaction : Type := {
  tx_description : string;
  tx_income : Q;
  tx_expense : Q;
  tx_category : string
}.

(** An entry of [fixed_expenses], with its own start date. *)
Record FixedExpense : Type := {
  fixed_date : Calendar.Date;
  fixed_income : Q;
  fixed_expense : Q;
  fixed_category : string
}.

(** [st.session_state.data_storage]; the two dictionaries keep their
    insertion order. *)
Record Storage : Type := {
  bank_expenses : list (Calendar.Date * list Transaction);
  cash_expenses : list (Calendar.Date * list Transaction);
  fixed_expenses : list FixedExpense
}.

(** The dictionary appended for one stored entry. *)
Definition training_record (d : Calendar.Date) (c : string) (e i : Q) : RawRecord :=
  {| date := d; category := c; amount := None;
     total_expense := Some e; total_income := Some i;
     transaction_type := Some (if Py.gt e 0 then "expense" else "income") |}.

(** [if exp.get("category")]: a category that is not the empty string. *)
Definition truthy (c : string) : bool := negb (String.eqb c "").

Definition dated_records (entries : list (Calendar.Date * list Transaction))
  : list RawRecord :=
  flat_map
    (fun '(d, expenses) =>
       flat_map
         (fun exp =>
            if truthy (tx_category exp)
            then [training_record d (tx_category exp) (tx_expense exp) (tx_income exp)]
            else [])
         expenses)
    entries.

(** [training_data]: online transactions, cash transactions, fixed expenses. *)
Definition training_data (st : Storage) : list RawRecord :=
  (dated_records (bank_expenses st)
     ++ dated_records (cash_expenses st)
     ++ map (fun exp =>
               training_record (fixed_date exp) (fixed_category exp)
                 (fixed_expense exp) (fixed_income exp))
          (fixed_expenses st))%list.

(** [list(set(exp["category"] for exp in training_data if exp.get("category")))]. *)
Definition unique_categories (data : list RawRecord) : list string :=
  elements (list_to_set (List.filter truthy (map category data)) : gset string).

(** The three totals of the prediction summary. *)
Definition total_pred_expense (predictions : list Prediction) : Q :=
  Py.sum (map predicted_expense predictions).

Definition total_pred_income (predictions : list Prediction) : Q :=
  Py.sum (map predicted_income predictions).

Definition pred_savings (predictions : list Prediction) : Q :=
  (total_pred_income predictions - total_pred_expense predictions)%Q.

(** What the page shows after the button is pressed. *)
Inductive Shown : Type :=
| NoDataWarning
| TrainingError (message : string)
| PredictionError (e : string)
| NoPredictions (message : string)
| Predictions (message : string) (predictions : list Prediction).

Section PredictionPage.

Context (L : Sklearn).

(** The body run by the button, on the forecaster [load_ml_model] gave. *)
Definition generate_predictions (model : ExpensePredictor L) (now : Calendar.Date)
  (st : Storage) : ExpensePredictor L * Shown :=
  let data := training_data st in
  match data with
  | [] => (model, NoDataWarning)
  | _ =>
      let (model, result) := train L model data in
      match result with
      | Py.Raises e => (model, PredictionError e)
      | Py.Returns (success, message) =>
          if success then
            let predictions := predict_next_month L model now (unique_categories data) in
            match predictions with
            | [] => (model, NoPredictions message)
            | _ => (model, Predictions message predictions)
            end
          else (model, TrainingError message)
      end
  end.

End PredictionPage.

Module Ledger.

(** Ten days of groceries and one salary, as the application stores them. *)
Definition groceries (n : nat) : list (Calendar.Date * list Transaction) :=
  map (fun k =>
         (Calendar.mkDate 2024 3 (Z.of_nat (S k)),
          [{| tx_description := "shop"; tx_income := 0; tx_expense := 450;
              tx_category := "Groceries" |}]))
    (seq 0 n).

Definition storage : Storage :=
  {| bank_expenses := groceries 10;
     cash_expenses :=
       [(Calendar.mkDate 2024 3 1,
         [{| tx_description := "pay"; tx_income := 52000; tx_expense := 0;
             tx_category := "Salary" |};
          {| tx_description := "note"; tx_income := 0; tx_expense := 120;
             tx_category := "" |}])];
     fixed_expenses :=
       [{| fixed_date := Calendar.mkDate 2024 3 5; fixed_income := 0;
           fixed_expense := 9000; fixed_category := "Rent" |}] |}.

End Ledger.

(** ** Notions used in the statements *)

(** The order in which [np.unique] leaves the classes. *)
Definition str_lt (a b : string) : Prop := String.ltb a b = true.

(** The number of rows that remain after preparation. *)
Definition usable_rows (data : list RawRecord) : nat :=
  match normalize data with
  | Some df => length df
  | None => 0%nat
  end.

(** The paired input format: both totals are present on every record. *)
Definition paired_format (data : list RawRecord) : Prop :=
  List.Forall (fun r => is_Some (total_expense r) /\ is_Some (total_income r)) data.

(** The split in the spec's words: one normalized row per direction whose
    total is positive, none for a total that is not. *)
Definition split_record (r : RawRecord) : list Row :=
  app
    (match total_expense r with
     | Some e =>
         if Py.gt e 0
         then [{| row_date := date r; row_category := category r;
                  row_amount := e; row_type := Some "expense" |}]
         else []
     | None => []
     end)
    (match total_income r with
     | Some i =>
         if Py.gt i 0
         then [{| row_date := date r; row_category := category r;
                  row_amount := i; row_type := Some "income" |}]
         else []
     | None => []
     end).


(** The confidence computed from an importance vector. *)
Definition confidence_of (importance : list Q) : Q :=
  Py.min 95 (Py.max 50 (Py.mean importance * 100)).

(** The pair [predict_next_month] obtains for [category] in one direction. *)
Definition forecast (L : Sklearn) (s : ExpensePredictor L) (now : Calendar.Date)
  (direction category : string) : Q * Q :=
  predict_category L s now category direction (Some (next_month_of now)).

(** The inclusion test of [predict_next_month]. *)
Definition has_signal (L : Sklearn) (s : ExpensePredictor L) (now : Calendar.Date)
  (category : string) : bool :=
  Py.gt (fst (forecast L s now "expense" category)) 0
  || Py.gt (fst (forecast L s now "income" category)) 0.

(** The label a code stands for ([inverse_transform]). *)
Definition label_of (classes : list string) (code : Z) : option string :=
  if (code <? 0)%Z then None else nth_error classes (Z.to_nat code).

(** [True] when the path holds a ['/']. *)
Fixpoint has_separator (p : string) : bool :=
  match p with
  | EmptyString => false
  | String c r => OsPath.is_sep c || has_separator r
  end.

(** The row of a record of the normalized format, if its amount is positive. *)
Definition kept_row (r : RawRecord) : option Row :=
  match amount r with
  | Some a =>
      if Py.gt a 0
      then Some {| row_date := date r; row_category := category r;
                   row_amount := a; row_type := transaction_type r |}
      else None
  | None => None
  end.

(** The one row [predict_category] builds with the constructor's column
    list: the month asked for, the other calendar fields of the day of the
    call, the rank of the category. *)
Definition query_row (now : Calendar.Date) (target_month : option Z) (code : Z) : list Z :=
  [match target_month with Some m => m | None => Calendar.month_of now end;
   Calendar.weekday now;
   Calendar.of_bool ((Calendar.weekday now =? 5)%Z || (Calendar.weekday now =? 6)%Z);
   Calendar.quarter now;
   Calendar.day now;
   Calendar.of_bool (Calendar.day now <=? 7)%Z;
   Calendar.of_bool (Calendar.day now >=? 24)%Z;
   code].

(** Every pass of the sampling loop draws a unit sample that is not negative. *)
Definition sound_rng (rng : nat -> Draw) : Prop :=
  forall i, (i < 500)%nat -> (0 <= unit_sample (rng i))%Q.

(** * Properties *)

(** ** The label encoder *)

Section LabelEncoderFacts.

Import LabelEncoder.

Lemma str_lt_compare a b : str_lt a b <-> String.compare a b = Lt.
Proof.
  unfold str_lt, String.ltb. destruct (String.compare a b); split; congruence.
Qed.

Lemma str_lt_trans a b c : str_lt a b -> str_lt b c -> str_lt a c.
Proof.
  rewrite !str_lt_compare. intros Hab Hbc.
  exact (StrictOrder_Transitive (R := String_as_OT.lt) a b c Hab Hbc).
Qed.

Lemma str_lt_irrefl a : ~ str_lt a a.
Proof.
  rewrite str_lt_compare. intros H.
  exact (StrictOrder_Irreflexive (R := String_as_OT.lt) a H).
Qed.

(** Two distinct labels are ordered one way or the other. *)
Lemma str_lt_total a b : String.eqb a b = false -> String.ltb a b = false -> str_lt b a.
Proof.
  intros Hne Hlt. apply str_lt_compare.
  rewrite String.compare_antisym.
  unfold String.ltb in Hlt.
  destruct (String.compare a b) eqn:E; simpl; try congruence.
  apply String.compare_eq_iff in E. apply String.eqb_neq in Hne. contradiction.
Qed.

Lemma mem_In x classes : mem x classes = true <-> In x classes.
Proof.
  unfold mem. rewrite existsb_exists. split.
  - intros [y [Hy Heq]]. apply String.eqb_eq in Heq. now subst.
  - intros H. exists x. split; [assumption | apply String.eqb_refl].
Qed.

Lemma insert_label_In x y l : In y (insert_label x l) <-> y = x \/ In y l.
Proof.
  induction l as [| z t IH]; simpl.
  - intuition.
  - destruct (String.eqb x z) eqn:E.
    + apply String.eqb_eq in E. subst z. simpl. intuition.
    + destruct (String.ltb x z); simpl; [intuition |].
      rewrite IH. intuition.
Qed.

(** The classes are exactly the labels that were seen. *)
Lemma fit_In x labels : In x (fit labels) <-> In x labels.
Proof.
  induction labels as [| y t IH]; simpl; [reflexivity |].
  rewrite insert_label_In, IH. intuition.
Qed.

Lemma insert_label_sorted x l :
  StronglySorted str_lt l -> StronglySorted str_lt (insert_label x l).
Proof.
  induction 1 as [| z t Hs IH Hall]; simpl.
  - repeat constructor.
  - destruct (String.eqb x z) eqn:E; [now constructor |].
    destruct (String.ltb x z) eqn:E'.
    + constructor; [now constructor |].
      constructor; [assumption |].
      rewrite List.Forall_forall in Hall |- *.
      intros a Ha. apply str_lt_trans with z; [exact E' | now apply Hall].
    + constructor; [assumption |].
      rewrite List.Forall_forall in Hall |- *. intros a Ha.
      apply insert_label_In in Ha. destruct Ha as [-> | Ha].
      * now apply str_lt_total.
      * now apply Hall.
Qed.

(** The classes are strictly increasing, hence pairwise distinct. *)
Lemma fit_sorted labels : StronglySorted str_lt (fit labels).
Proof.
  induction labels as [| y t IH]; simpl; [constructor |].
  now apply insert_label_sorted.
Qed.

Lemma sorted_NoDup l : StronglySorted str_lt l -> NoDup l.
Proof.
  induction 1 as [| z t Hs IH Hall]; constructor; [| assumption].
  intros Hin. apply list_elem_of_In in Hin. rewrite List.Forall_forall in Hall.
  exact (str_lt_irrefl z (Hall z Hin)).
Qed.

Lemma fit_NoDup labels : NoDup (fit labels).
Proof. apply sorted_NoDup, fit_sorted. Qed.

End LabelEncoderFacts.

(** ** The model on small inputs *)

Example weekday_2024_03_01 : Calendar.weekday (Calendar.mkDate 2024 3 1) = 4%Z.
Proof. reflexivity. Qed.

Example weekday_1970_01_01 : Calendar.weekday (Calendar.mkDate 1970 1 1) = 3%Z.
Proof. reflexivity. Qed.

Example weekday_2000_02_29 : Calendar.weekday (Calendar.mkDate 2000 2 29) = 1%Z.
Proof. reflexivity. Qed.

Example fit_sorts_and_dedups :
  LabelEncoder.fit ["Salary"; "Food"; "Salary"; "Cloths"] = ["Cloths"; "Food"; "Salary"].
Proof. reflexivity. Qed.

Example dirname_of_model_path :
  OsPath.dirname "model/expense_predictor.joblib" = "model".
Proof. reflexivity. Qed.

Example dirname_of_bare_name : OsPath.dirname "expense_predictor.joblib" = "".
Proof. reflexivity. Qed.

Example dirname_keeps_root : OsPath.dirname "/m" = "/".
Proof. reflexivity. Qed.

(** A bare file name makes [os.makedirs('')] raise, and [save_model] fail. *)
Example save_model_bare_name :
  snd (save_model Toy.lib Toy.trained "expense_predictor.joblib" ∅)
  = (false, "Failed to save model: [Errno 2] No such file or directory: ''").
Proof. vm_compute. reflexivity. Qed.

(** The rows of a retrain carry the unknown-category code. *)
Example retrain_codes_unknown :
  snd (prepare_data Toy.lib Toy.trained (Toy.expenses 1 "Rent" 900))
  = Xy [[3; 4; 0; 1; 1; 1; 0; -1]]%Z [900%Q].
Proof. vm_compute. reflexivity. Qed.

(** ** Preparation and training *)

Section TrainingFacts.

Context (L : Sklearn).

Lemma create_features_fitted (s : ExpensePredictor L) df :
  is_fitted s = true -> fst (create_features L s df) = s.
Proof. intros H. unfold create_features. now rewrite H. Qed.

Lemma create_features_unfitted (s : ExpensePredictor L) df :
  is_fitted s = false ->
  fst (create_features L s df)
  = set_category_encoder L (LabelEncoder.fit (map row_category df)) s.
Proof. intros H. unfold create_features. now rewrite H. Qed.

Lemma create_features_length (s : ExpensePredictor L) df :
  length (snd (create_features L s df)) = length df.
Proof.
  unfold create_features. destruct (is_fitted s); simpl; apply length_map.
Qed.

(** The feature step never touches the estimator, the column list or the flag. *)
Lemma create_features_frame (s : ExpensePredictor L) df :
  let s1 := fst (create_features L s df) in
  model s1 = model s /\ feature_columns s1 = feature_columns s
  /\ is_fitted s1 = is_fitted s.
Proof.
  unfold create_features. destruct (is_fitted s) eqn:E; simpl; auto.
Qed.

Lemma select_columns_length names (df : list FeatureRow) X :
  select_columns names df = Py.Returns X -> length X = length df.
Proof.
  unfold select_columns. destruct (missing_column names); [discriminate |].
  intros [= <-]. apply length_map.
Qed.

(** [prepare_data] returns [(X, y)] only for a non-empty usable frame, one
    row of [X] and one target per usable row, and its state is the one the
    feature step left. *)
Lemma prepare_data_Xy (s s1 : ExpensePredictor L) data X y :
  prepare_data L s data = (s1, Xy X y) ->
  exists df, normalize data = Some df
             /\ s1 = fst (create_features L s df)
             /\ length X = length df
             /\ y = map row_amount df.
Proof.
  unfold prepare_data. destruct (normalize data) as [df |]; [| discriminate].
  pose proof (create_features_length s df) as Hlen.
  destruct (create_features L s df) as [s' features] eqn:Ecf; simpl in Hlen.
  destruct (select_columns (feature_columns s') features) as [X' | name] eqn:E;
    [| discriminate].
  intros [= <- <- <-]. exists df. rewrite Ecf. repeat split.
  apply select_columns_length in E. congruence.
Qed.

Lemma prepare_data_NoneNone (s s1 : ExpensePredictor L) data :
  prepare_data L s data = (s1, NoneNone) -> normalize data = None /\ s1 = s.
Proof.
  unfold prepare_data. destruct (normalize data) as [df |].
  - destruct (create_features L s df) as [s' features].
    destruct (select_columns (feature_columns s') features); discriminate.
  - now intros [= <-].
Qed.

(** The state [prepare_data] leaves behind. *)
Lemma prepare_data_state (s : ExpensePredictor L) data :
  fst (prepare_data L s data)
  = match normalize data with
    | None => s
    | Some df => fst (create_features L s df)
    end.
Proof.
  unfold prepare_data. destruct (normalize data) as [df |]; [| reflexivity].
  destruct (create_features L s df) as [s' features]; simpl.
  now destruct (select_columns (feature_columns s') features).
Qed.

(** [train] changes the state [prepare_data] left only by assigning the
    estimator and, possibly, raising the flag. *)
Lemma train_state (s : ExpensePredictor L) data :
  let s1 := fst (prepare_data L s data) in
  let s2 := fst (train L s data) in
  category_encoder s2 = category_encoder s1
  /\ feature_columns s2 = feature_columns s1
  /\ (is_fitted s1 = true -> is_fitted s2 = true).
Proof.
  unfold train. destruct (prepare_data L s data) as [s1 [| name | X y]]; simpl; auto.
  destruct (length X <? 10)%nat; simpl; auto.
  destruct (train_test_split L X y) as [[X_train X_test] [y_train y_test]].
  destruct (fit L (model s1) X_train y_train) as [m [e |]]; simpl; auto.
  destruct (predict L m X_test) as [y_pred | e]; simpl; auto.
  destruct (mean_absolute_error L y_test y_pred) as [mae | e]; simpl; auto.
  destruct (r2_score L y_test y_pred) as [r2 | e]; simpl; auto.
Qed.

(** Once the flag is up, no call to [train] replaces the vocabulary. *)
Lemma train_fitted_keeps_encoder (s : ExpensePredictor L) data :
  is_fitted s = true ->
  category_encoder (fst (train L s data)) = category_encoder s
  /\ is_fitted (fst (train L s data)) = true.
Proof.
  intros Hfit. destruct (train_state s data) as (Henc & _ & Hflag).
  rewrite prepare_data_state in Henc, Hflag.
  destruct (normalize data) as [df |].
  - rewrite create_features_fitted in Henc, Hflag by assumption. auto.
  - auto.
Qed.

(** While the flag is down, [train] on a usable frame leaves the sorted
    distinct categories of that frame as the vocabulary. *)
Lemma train_unfitted_fits_encoder (s : ExpensePredictor L) data df :
  is_fitted s = false -> normalize data = Some df ->
  category_encoder (fst (train L s data)) = LabelEncoder.fit (map row_category df).
Proof.
  intros Hfit Hdf. destruct (train_state s data) as (Henc & _ & _).
  rewrite prepare_data_state, Hdf in Henc.
  rewrite create_features_unfitted in Henc by assumption. exact Henc.
Qed.


Lemma normalize_nonempty data df : normalize data = Some df -> df <> [].
Proof.
  unfold normalize. destruct data as [| r data]; [discriminate |].
  match goal with |- match ?f with _ => _ end = _ -> _ => destruct f as [frame |] end;
    [| discriminate].
  destruct (List.filter _ frame); [discriminate |]. now intros [= <-].
Qed.

Lemma select_columns_present names (df : list FeatureRow) :
  missing_column names = None ->
  select_columns names df = Py.Returns (map (select_row names) df).
Proof. unfold select_columns. now intros ->. Qed.

(** With a column list the frame has, [prepare_data] does not raise. *)
Lemma prepare_data_present (s : ExpensePredictor L) data :
  missing_column (feature_columns s) = None ->
  prepare_data L s data
  = match normalize data with
    | None => (s, NoneNone)
    | Some df =>
        (fst (create_features L s df),
         Xy (map (select_row (feature_columns s)) (snd (create_features L s df)))
            (map row_amount df))
    end.
Proof.
  intros Hcols. unfold prepare_data. destruct (normalize data) as [df |]; [| reflexivity].
  destruct (create_features_frame s df) as (_ & Hfc & _).
  destruct (create_features L s df) as [s' features]; simpl in *.
  rewrite Hfc, select_columns_present by assumption. reflexivity.
Qed.

(** C3. With a column list the frame has, [train] on fewer than ten usable
    rows returns a failure and leaves the flag as it was: the message is the
    minimum-10-samples one when one to nine rows remain and the
    no-valid-data one when none does. With ten usable rows (or more) the
    threshold is met, and [train] returns success, with the flag raised,
    whenever the calls into the library return. *)
Theorem train_minimum_data_threshold (s : ExpensePredictor L) data :
  missing_column (feature_columns s) = None ->
  ((usable_rows data < 10)%nat ->
     snd (train L s data)
     = Py.Returns
         (false,
          if (usable_rows data =? 0)%nat then "No valid data for training"
          else "Insufficient data for training (minimum 10 samples required)")
     /\ is_fitted (fst (train L s data)) = is_fitted s)
  /\ ((10 <= usable_rows data)%nat ->
      exists X y,
        snd (prepare_data L s data) = Xy X y
        /\ length X = usable_rows data
        /\ forall X_train X_test y_train y_test m y_pred mae r2,
            train_test_split L X y = ((X_train, X_test), (y_train, y_test)) ->
            fit L (model s) X_train y_train = (m, None) ->
            predict L m X_test = Py.Returns y_pred ->
            mean_absolute_error L y_test y_pred = Py.Returns mae ->
            r2_score L y_test y_pred = Py.Returns r2 ->
            snd (train L s data)
            = Py.Returns
                (true,
                 "Model trained successfully. MAE: " ++ format_2f L mae
                   ++ ", R²: " ++ format_3f L r2)
            /\ is_fitted (fst (train L s data)) = true
            /\ model (fst (train L s data)) = m).
Proof.
  intros Hcols. pose proof (prepare_data_present s data Hcols) as Hprep.
  unfold usable_rows. split.
  - intros Hlt. unfold train. rewrite Hprep.
    destruct (normalize data) as [df |] eqn:Hdf; [| now split].
    pose proof (normalize_nonempty _ _ Hdf) as Hne.
    destruct (create_features_frame s df) as (_ & _ & Hflag).
    pose proof (create_features_length s df) as Hlen.
    destruct (create_features L s df) as [s' features]; simpl in *.
    rewrite length_map, Hlen.
    destruct (Nat.ltb_spec (length df) 10) as [_ | Hge]; [| lia].
    destruct df; [contradiction | simpl; now split].
  - intros Hge. destruct (normalize data) as [df |] eqn:Hdf; [| lia].
    pose proof (create_features_length s df) as Hlen.
    destruct (create_features_frame s df) as (Hm & _ & _).
    eexists _, _. split; [rewrite Hprep; reflexivity |].
    rewrite length_map. split; [exact Hlen |].
    intros X_train X_test y_train y_test m y_pred mae r2 Hsplit Hfit Hpred Hmae Hr2.
    unfold train. rewrite Hprep, length_map, Hlen, Hm.
    destruct (Nat.ltb_spec (length df) 10) as [Hlt | _]; [lia |].
    rewrite Hsplit, Hfit, Hpred, Hmae, Hr2. repeat split.
Qed.


End TrainingFacts.

(** C1 (not met by the code). A forecaster trained on ten
    [Food] expenses is trained again, successfully, on ten [Rent] expenses.
    The estimator is replaced, but the vocabulary is still the one of the
    first pass and not the distinct categories of the new dataset, so [Rent]
    gets the no-signal answer from the retrained forecaster. *)
Theorem retrain_keeps_old_vocabulary :
  let data := Toy.expenses 10 "Rent" 900 in
  let after := fst (train Toy.lib Toy.trained data) in
  is_fitted Toy.trained = true
  /\ snd (train Toy.lib Toy.trained data)
     = Py.Returns (true, "Model trained successfully. MAE: 0, R²: 1")
  /\ model Toy.trained = Some 500%Q
  /\ model after = Some 900%Q
  /\ category_encoder after = ["Food"]
  /\ LabelEncoder.fit (map category data) = ["Rent"]
  /\ predict_category Toy.lib after Toy.today "Rent" "expense" None = (0, 0)%Q.
Proof. vm_compute. repeat split. Qed.


(** The threshold at work: nine [Food] expenses are refused, ten are accepted. *)
Lemma train_minimum_data_threshold_witness :
  missing_column (feature_columns (init Toy.lib)) = None
  /\ snd (train Toy.lib (init Toy.lib) (Toy.expenses 9 "Food" 500))
     = Py.Returns (false, "Insufficient data for training (minimum 10 samples required)")
  /\ snd (train Toy.lib (init Toy.lib) (Toy.expenses 10 "Food" 500))
     = Py.Returns (true, "Model trained successfully. MAE: 0, R²: 1").
Proof.
  split; [reflexivity |]. split.
  - destruct (train_minimum_data_threshold Toy.lib (init Toy.lib)
                (Toy.expenses 9 "Food" 500) eq_refl) as [Hlow _].
    destruct Hlow as [Hmsg _]; [vm_compute; lia | exact Hmsg].
  - destruct (train_minimum_data_threshold Toy.lib (init Toy.lib)
                (Toy.expenses 10 "Food" 500) eq_refl) as [_ Hhigh].
    destruct Hhigh as (X & y & Hprep & _ & Hrun); [vm_compute; lia |].
    destruct (train_test_split Toy.lib X y) as [[X_train X_test] [y_train y_test]] eqn:Hsplit.
    vm_compute in Hprep. injection Hprep as <- <-.
    pose proof Hsplit as Hparts. vm_compute in Hparts.
    injection Hparts as <- <- <- <-.
    destruct (Hrun _ _ _ _ (Some 500%Q) [500%Q; 500%Q] 0%Q 1%Q Hsplit) as [Hmsg _];
      [vm_compute; reflexivity .. | exact Hmsg].
Defined.


(** ** Guards of the predictor and persistence *)

Section GuardFacts.

Context (L : Sklearn).

(** C5. A forecaster whose flag was never raised, the freshly constructed
    one in particular, answers [(0, 0)] to every [predict_category] call and
    the empty list to every [predict_next_month] call, and [save_model]
    returns the not-trained failure without touching the file system. *)
Theorem untrained_guard (s : ExpensePredictor L) :
  is_fitted s = false ->
  (forall now c t tm, predict_category L s now c t tm = (0, 0)%Q)
  /\ (forall now categories, predict_next_month L s now categories = [])
  /\ (forall filepath fs,
        save_model L s filepath fs = (fs, (false, "Model not trained yet"))).
Proof.
  intros Hflag. repeat split; intros.
  - unfold predict_category. now rewrite Hflag.
  - unfold predict_next_month. now rewrite Hflag.
  - unfold save_model. now rewrite Hflag.
Qed.

(** C6. A trained forecaster answers [(0, 0)] for a category outside its
    vocabulary, whatever the direction and the target month. *)
Theorem unknown_category_no_signal (s : ExpensePredictor L) now c t tm :
  is_fitted s = true ->
  ~ In c (category_encoder s) ->
  predict_category L s now c t tm = (0, 0)%Q.
Proof.
  intros Hflag Hout. unfold predict_category. rewrite Hflag. simpl.
  destruct (LabelEncoder.mem c (category_encoder s)) eqn:E; [| reflexivity].
  apply mem_In in E. contradiction.
Qed.

Lemma set_all_fields (s s0 : ExpensePredictor L) :
  set_is_fitted L (is_fitted s)
    (set_feature_columns L (feature_columns s)
       (set_category_encoder L (category_encoder s) (set_model L (model s) s0)))
  = s.
Proof. now destruct s. Qed.

(** What a successful [save_model] leaves at the path. *)
Lemma save_model_success (s : ExpensePredictor L) filepath
  (fs : gmap string (File (Estimator L))) :
  fst (snd (save_model L s filepath fs)) = true ->
  is_fitted s = true
  /\ OsPath.dirname filepath <> ""
  /\ fst (save_model L s filepath fs) !! filepath = Some (Pickled (model_data L s)).
Proof.
  unfold save_model. destruct (is_fitted s); [| discriminate]. simpl.
  unfold OsPath.makedirs. destruct (String.eqb_spec (OsPath.dirname filepath) "") as [E | E];
    [discriminate |].
  simpl. intros _. repeat split; [assumption |]. apply lookup_insert_eq.
Qed.

(** C4. After a [save_model] that succeeded, [load_model] from the same
    path succeeds on any forecaster object and makes its state the saved
    one: estimator, vocabulary, column list and flag. Every
    [predict_category] call then returns the same pair as on the saved
    forecaster. *)
Theorem save_load_roundtrip (s s0 : ExpensePredictor L) filepath
  (fs : gmap string (File (Estimator L))) :
  fst (snd (save_model L s filepath fs)) = true ->
  load_model L s0 filepath (fst (save_model L s filepath fs))
  = (s, (true, "Model loaded successfully"))
  /\ forall now c t tm,
      predict_category L
        (fst (load_model L s0 filepath (fst (save_model L s filepath fs)))) now c t tm
      = predict_category L s now c t tm.
Proof.
  intros Hsaved. destruct (save_model_success _ _ _ Hsaved) as (_ & _ & Hfile).
  assert (Hload : load_model L s0 filepath (fst (save_model L s filepath fs))
                  = (s, (true, "Model loaded successfully"))).
  { unfold load_model. rewrite Hfile. simpl. now rewrite set_all_fields. }
  split; [exact Hload |]. intros. now rewrite Hload.
Qed.

End GuardFacts.

Lemma untrained_guard_witness :
  is_fitted (init Toy.lib) = false
  /\ predict_category Toy.lib (init Toy.lib) Toy.today "Food" "expense" None = (0, 0)%Q
  /\ predict_next_month Toy.lib (init Toy.lib) Toy.today ["Food"; "Salary"] = []
  /\ snd (save_model Toy.lib (init Toy.lib) "model/expense_predictor.joblib" ∅)
     = (false, "Model not trained yet").
Proof.
  destruct (untrained_guard Toy.lib (init Toy.lib) eq_refl) as (Hcat & Hnext & Hsave).
  split; [reflexivity |]. split; [apply Hcat |]. split; [apply Hnext |].
  now rewrite Hsave.
Defined.

Lemma unknown_category_no_signal_witness :
  is_fitted Toy.trained = true
  /\ ~ In "NeverSeenCategory" (category_encoder Toy.trained)
  /\ predict_category Toy.lib Toy.trained Toy.today "NeverSeenCategory" "expense" None
     = (0, 0)%Q.
Proof.
  assert (Hout : ~ In "NeverSeenCategory" (category_encoder Toy.trained)).
  { vm_compute. intros [H | H]; [discriminate | exact H]. }
  split; [reflexivity |]. split; [exact Hout |].
  exact (unknown_category_no_signal Toy.lib Toy.trained Toy.today
           "NeverSeenCategory" "expense" None eq_refl Hout).
Defined.

Lemma save_load_roundtrip_witness :
  fst (snd (save_model Toy.lib Toy.trained "model/expense_predictor.joblib" ∅)) = true
  /\ predict_category Toy.lib
       (fst (load_model Toy.lib (init Toy.lib) "model/expense_predictor.joblib"
               (fst (save_model Toy.lib Toy.trained "model/expense_predictor.joblib" ∅))))
       Toy.today "Food" "expense" None
     = predict_category Toy.lib Toy.trained Toy.today "Food" "expense" None.
Proof.
  assert (Hsaved : fst (snd (save_model Toy.lib Toy.trained
                               "model/expense_predictor.joblib" ∅)) = true)
    by reflexivity.
  split; [exact Hsaved |].
  apply (save_load_roundtrip Toy.lib Toy.trained (init Toy.lib)
           "model/expense_predictor.joblib" ∅ Hsaved).
Defined.

(** ** The two input formats *)

Section PrepareFacts.

Lemma omap_side_positive key direction data :
  List.Forall (fun r => Py.gt (row_amount r) 0 = true)
    (omap (side key direction) data : list Row).
Proof.
  induction data as [| r data IH]; cbn; [constructor |].
  unfold side at 1. destruct (key r) as [q |]; [| exact IH].
  destruct (Py.gt q 0) eqn:E; [| exact IH].
  constructor; [exact E | exact IH].
Qed.

Lemma filter_all {A : Type} (f : A -> bool) (l : list A) :
  List.Forall (fun x => f x = true) l -> List.filter f l = l.
Proof.
  induction 1 as [| x l Hx _ IH]; simpl; [reflexivity |].
  now rewrite Hx, IH.
Qed.

Lemma omap_cons {A B : Type} (f : A -> option B) x (l : list A) :
  (omap f (x :: l) : list B) = (option_list (f x) ++ omap f l)%list.
Proof. cbn. now destruct (f x). Qed.

Lemma split_record_sides r :
  split_record r
  = (option_list (side total_expense "expense" r)
       ++ option_list (side total_income "income" r))%list.
Proof.
  unfold split_record, side.
  destruct (total_expense r) as [e |], (total_income r) as [i |];
    try destruct (Py.gt e 0); try destruct (Py.gt i 0); reflexivity.
Qed.

(** The rows of the expense side followed by those of the income side are
    the rows of the record-by-record split, up to order. *)
Lemma sides_split data :
  Permutation
    ((omap (side total_expense "expense") data : list Row)
       ++ (omap (side total_income "income") data : list Row))%list
    (flat_map split_record data).
Proof.
  induction data as [| r data IH]; [constructor |].
  rewrite !omap_cons. simpl flat_map. rewrite split_record_sides, <- IH.
  rewrite <- !app_assoc. apply Permutation_app_head.
  rewrite !app_assoc. apply Permutation_app_tail, Permutation_app_comm.
Qed.

Lemma all_data_concat (e i : list Row) :
  let all_data :=
    app (match e with [] => [] | _ => [e] end)
        (match i with [] => [] | _ => [i] end) in
  match all_data with
  | [] => None
  | _ => Some (concat all_data)
  end
  = match (e ++ i)%list with
    | [] => None
    | rows => Some rows
    end.
Proof.
  destruct e as [| a e], i as [| b i]; simpl; rewrite ?app_nil_r; reflexivity.
Qed.

(** With both total columns present, the frame is the expense side followed
    by the income side, and no frame at all when both sides are empty. *)
Lemma normalize_paired data :
  has_column total_expense data = true ->
  has_column total_income data = true ->
  normalize data
  = match ((omap (side total_expense "expense") data : list Row)
             ++ (omap (side total_income "income") data : list Row))%list with
    | [] => None
    | rows => Some rows
    end.
Proof.
  intros He Hi. unfold normalize. destruct data as [| r data]; [discriminate |].
  rewrite He, Hi. cbv zeta. simpl andb. cbv iota.
  rewrite (all_data_concat _ _).
  pose proof (omap_side_positive total_expense "expense" (r :: data)) as Pe.
  pose proof (omap_side_positive total_income "income" (r :: data)) as Pi.
  assert (Pall : List.Forall (fun r => Py.gt (row_amount r) 0 = true)
                   ((omap (side total_expense "expense") (r :: data) : list Row)
                      ++ (omap (side total_income "income") (r :: data) : list Row))%list)
    by (apply List.Forall_app; now split).
  destruct (_ ++ _)%list as [| a rows]; [reflexivity |].
  now rewrite (filter_all _ _ Pall).
Qed.

Lemma paired_has_columns r data :
  paired_format (r :: data) ->
  has_column total_expense (r :: data) = true
  /\ has_column total_income (r :: data) = true.
Proof.
  intros H. inversion H as [| ? ? [[e He] [i Hi]] _]; subst.
  unfold has_column. simpl. now rewrite He, Hi.
Qed.

(** C7. On an input in the paired format, the prepared frame holds, up to
    order, one row per record and direction whose total is positive, with
    that total as its amount, and nothing else; when no total is positive
    there is no frame. On the two records of the example the frame is the
    [Food] expense of 500 and the [Salary] income of 50000, and
    [prepare_data] returns two feature rows with these two targets. *)
Theorem prepare_paired_split (L : Sklearn) :
  (forall data,
      paired_format data ->
      match normalize data with
      | Some rows =>
          Permutation rows (flat_map split_record data)
          /\ List.Forall (fun r => (0 < row_amount r)%Q) rows
      | None => flat_map split_record data = []
      end)
  /\ normalize Toy.mixed
     = Some [{| row_date := Calendar.mkDate 2024 3 2; row_category := "Food";
                row_amount := 500; row_type := Some "expense" |};
             {| row_date := Calendar.mkDate 2024 3 1; row_category := "Salary";
                row_amount := 50000; row_type := Some "income" |}]
  /\ snd (prepare_data L (init L) Toy.mixed)
     = Xy [[3; 5; 1; 1; 2; 1; 0; 0]; [3; 4; 0; 1; 1; 1; 0; 1]]%Z [500; 50000]%Q.
Proof.
  split; [| split; reflexivity].
  intros data Hpaired. destruct data as [| r data]; [reflexivity |].
  destruct (paired_has_columns _ _ Hpaired) as [He Hi].
  rewrite (normalize_paired _ He Hi).
  pose proof (sides_split (r :: data)) as Hperm.
  pose proof (omap_side_positive total_expense "expense" (r :: data)) as Pe.
  pose proof (omap_side_positive total_income "income" (r :: data)) as Pi.
  assert (Pall : List.Forall (fun r => (0 < row_amount r)%Q)
                   ((omap (side total_expense "expense") (r :: data) : list Row)
                      ++ (omap (side total_income "income") (r :: data) : list Row))%list).
  { apply List.Forall_app. split; eapply List.Forall_impl; try eassumption;
      intros a Ha; now apply QMicromega.Qlt_bool_iff in Ha. }
  destruct (_ ++ _)%list as [| a rows] eqn:E.
  - apply Permutation_nil in Hperm. exact Hperm.
  - split; assumption.
Qed.

End PrepareFacts.

Lemma prepare_paired_split_witness :
  paired_format Toy.mixed
  /\ match normalize Toy.mixed with
     | Some rows =>
         Permutation rows (flat_map split_record Toy.mixed)
         /\ List.Forall (fun r => (0 < row_amount r)%Q) rows
     | None => flat_map split_record Toy.mixed = []
     end.
Proof.
  assert (Hpaired : paired_format Toy.mixed).
  { repeat constructor; eexists; reflexivity. }
  split; [exact Hpaired |].
  exact (proj1 (prepare_paired_split Toy.lib) Toy.mixed Hpaired).
Defined.

(** ** Predictions *)

Section PredictionFacts.

Context (L : Sklearn).

Lemma py_max_lower a b : (a <= Py.max a b)%Q.
Proof.
  unfold Py.max. destruct (QMicromega.Qlt_bool a b) eqn:E.
  - apply QMicromega.Qlt_bool_iff in E. lra.
  - lra.
Qed.

Lemma confidence_bounds importance :
  (50 <= confidence_of importance <= 95)%Q.
Proof.
  unfold confidence_of.
  pose proof (py_max_lower 50 (Py.mean importance * 100)) as Hlow.
  unfold Py.min.
  destruct (QMicromega.Qlt_bool (Py.max 50 (Py.mean importance * 100)) 95) eqn:E.
  - apply QMicromega.Qlt_bool_iff in E. lra.
  - lra.
Qed.





End PredictionFacts.

(** ** The forecast for the next month *)

Section NextMonthFacts.

Context (L : Sklearn).

Lemma predict_step_app (s : ExpensePredictor L) now nm acc c :
  predict_step L s now nm acc c = (acc ++ predict_step L s now nm [] c)%list.
Proof.
  unfold predict_step.
  destruct (predict_category L s now c "expense" (Some nm)) as [e ec].
  destruct (predict_category L s now c "income" (Some nm)) as [i ic].
  destruct (Py.gt e 0 || Py.gt i 0); [reflexivity | now rewrite app_nil_r].
Qed.

(** The loop appends, category by category, what one step gives from the
    empty list. *)
Lemma fold_predict_step (s : ExpensePredictor L) now nm categories acc :
  fold_left (predict_step L s now nm) categories acc
  = (acc ++ flat_map (predict_step L s now nm []) categories)%list.
Proof.
  revert acc. induction categories as [| c categories IH]; intros acc; simpl.
  - now rewrite app_nil_r.
  - rewrite IH, predict_step_app. now rewrite <- app_assoc.
Qed.

Lemma predict_next_month_fitted (s : ExpensePredictor L) now categories :
  is_fitted s = true ->
  predict_next_month L s now categories
  = flat_map (predict_step L s now (next_month_of now) []) categories.
Proof.
  intros Hflag. unfold predict_next_month. rewrite Hflag. simpl negb. cbv iota.
  apply fold_predict_step.
Qed.

(** What one step from the empty list holds. *)
Lemma predict_step_entry (s : ExpensePredictor L) now c p :
  In p (predict_step L s now (next_month_of now) [] c) ->
  p_category p = c
  /\ has_signal L s now c = true
  /\ (predicted_expense p, expense_confidence p) = forecast L s now "expense" c
  /\ (predicted_income p, income_confidence p) = forecast L s now "income" c
  /\ p_transaction_type p
     = if Py.gt (predicted_expense p) (predicted_income p) then "expense" else "income".
Proof.
  unfold predict_step, has_signal, forecast.
  destruct (predict_category L s now c "expense" (Some (next_month_of now))) as [e ec].
  destruct (predict_category L s now c "income" (Some (next_month_of now))) as [i ic].
  simpl fst. destruct (Py.gt e 0 || Py.gt i 0); [| intros []].
  intros [<- | []]. simpl. repeat split.
Qed.

Lemma predict_step_categories (s : ExpensePredictor L) now c :
  map p_category (predict_step L s now (next_month_of now) [] c)
  = if has_signal L s now c then [c] else [].
Proof.
  unfold predict_step, has_signal, forecast.
  destruct (predict_category L s now c "expense" (Some (next_month_of now))) as [e ec].
  destruct (predict_category L s now c "income" (Some (next_month_of now))) as [i ic].
  simpl fst. now destruct (Py.gt e 0 || Py.gt i 0).
Qed.

(** C10. On a trained forecaster, [predict_next_month] forecasts for the
    month after the current one, January after December; the categories of
    its entries are, in order, the input categories for which the expense
    or the income forecast is positive; each entry carries the two
    forecasts of its category, and its tag is decided by the comparison of
    line 198: [expense] exactly when the expense amount is strictly the
    larger one, [income] in every other case, equal amounts included. *)
Theorem predict_next_month_contract (s : ExpensePredictor L) now categories :
  is_fitted s = true ->
  (Calendar.month_of now = 12 -> next_month_of now = 1)%Z
  /\ (1 <= Calendar.month_of now <= 12 ->
      1 <= next_month_of now <= 12
      /\ next_month_of now = Calendar.month_of now mod 12 + 1)%Z
  /\ map p_category (predict_next_month L s now categories)
     = List.filter (has_signal L s now) categories
  /\ forall p,
      In p (predict_next_month L s now categories) ->
      In (p_category p) categories
      /\ (predicted_expense p, expense_confidence p)
         = forecast L s now "expense" (p_category p)
      /\ (predicted_income p, income_confidence p)
         = forecast L s now "income" (p_category p)
      /\ (0 < predicted_expense p \/ 0 < predicted_income p)%Q
      /\ p_transaction_type p
         = (if Py.gt (predicted_expense p) (predicted_income p)
            then "expense" else "income")
      /\ (p_transaction_type p = "expense"
          <-> (predicted_income p < predicted_expense p)%Q)
      /\ (p_transaction_type p = "income"
          <-> (predicted_expense p <= predicted_income p)%Q).
Proof.
  intros Hflag. rewrite (predict_next_month_fitted s now categories Hflag).
  split; [| split; [| split]].
  - unfold next_month_of. intros ->. reflexivity.
  - unfold next_month_of. intros Hm.
    destruct (Z.ltb_spec (Calendar.month_of now) 12) as [Hlt | Hge].
    + rewrite Z.mod_small by lia. lia.
    + assert (Calendar.month_of now = 12)%Z as -> by lia. split; [lia | reflexivity].
  - induction categories as [| c categories IH]; [reflexivity |].
    simpl. rewrite map_app, IH, predict_step_categories.
    now destruct (has_signal L s now c).
  - intros p Hin. apply in_flat_map in Hin. destruct Hin as (c & Hc & Hp).
    apply predict_step_entry in Hp.
    destruct Hp as (Hcat & Hsig & Hexp & Hinc & Htag). subst c.
    split; [exact Hc |]. split; [exact Hexp |]. split; [exact Hinc |].
    unfold has_signal in Hsig. rewrite <- Hexp, <- Hinc in Hsig. simpl in Hsig.
    split; [| split; [exact Htag |]].
    + apply orb_true_iff in Hsig.
      destruct Hsig as [H | H]; apply QMicromega.Qlt_bool_iff in H; auto.
    + rewrite Htag. unfold Py.gt.
      destruct (QMicromega.Qlt_bool (predicted_income p) (predicted_expense p)) eqn:E.
      * apply QMicromega.Qlt_bool_iff in E.
        split; split; try (intros _; assumption); try reflexivity;
          try discriminate; intros Hle; lra.
      * assert (Hnlt : ~ (predicted_income p < predicted_expense p)%Q).
        { intros Hlt. apply QMicromega.Qlt_bool_iff in Hlt. congruence. }
        split; split; try reflexivity; try discriminate;
          try (intros Hlt; contradiction); intros _; lra.
Qed.

End NextMonthFacts.

(** The direction is not a feature column: with a column list the frame
    has, the two forecasts of a category are the same pair, so an entry of
    [predict_next_month] is always tagged [income]. *)
Lemma predict_category_ignores_direction (L : Sklearn) (s : ExpensePredictor L)
  now c t t' tm :
  predict_category L s now c t tm = predict_category L s now c t' tm.
Proof.
  unfold predict_category. destruct (is_fitted s) eqn:Hflag; [| reflexivity].
  simpl negb. cbv iota.
  destruct (LabelEncoder.mem c (category_encoder s)); [| reflexivity].
  simpl negb. cbv iota. unfold create_features. rewrite Hflag. simpl negb. cbv iota.
  unfold select_columns. destruct (missing_column (feature_columns s)); reflexivity.
Qed.


Lemma toy_trained_knows_food : In "Food" (category_encoder Toy.trained).
Proof. vm_compute. left. reflexivity. Qed.



Lemma predict_next_month_contract_witness :
  is_fitted Toy.trained = true
  /\ next_month_of Toy.today = 1%Z
  /\ map p_category (predict_next_month Toy.lib Toy.trained Toy.today ["Food"; "Rent"])
     = ["Food"]
  /\ map p_transaction_type
       (predict_next_month Toy.lib Toy.trained Toy.today ["Food"; "Rent"])
     = ["income"].
Proof.
  destruct (predict_next_month_contract Toy.lib Toy.trained Toy.today ["Food"; "Rent"]
              eq_refl) as (Hdec & _ & Hcats & _).
  split; [reflexivity |]. split; [apply Hdec; reflexivity |].
  split; [rewrite Hcats |]; vm_compute; reflexivity.
Defined.

(** * Further properties of the module *)

(** ** Vocabulary and codes *)

Section EncodingFacts.

Context (L : Sklearn).

Lemma index_of_bounds x classes :
  In x classes -> (0 <= LabelEncoder.index_of x classes < Z.of_nat (length classes))%Z.
Proof.
  induction classes as [| y t IH]; simpl; [intros [] |].
  intros Hin. destruct (String.eqb_spec x y) as [-> | Hne]; [lia |].
  destruct Hin as [-> | Hin]; [contradiction |]. specialize (IH Hin). lia.
Qed.

Lemma index_of_nonneg x classes : (0 <= LabelEncoder.index_of x classes)%Z.
Proof. induction classes as [| y t IH]; simpl; [lia |]. destruct (String.eqb x y); lia. Qed.

(** Decoding the rank of a class gives the class back. *)
Lemma label_of_index_of x classes :
  In x classes -> label_of classes (LabelEncoder.index_of x classes) = Some x.
Proof.
  unfold label_of. intros Hin.
  pose proof (index_of_nonneg x classes) as Hpos.
  destruct (Z.ltb_spec (LabelEncoder.index_of x classes) 0) as [Hneg | _]; [lia |].
  clear Hpos. induction classes as [| y t IH]; simpl; [destruct Hin |].
  destruct (String.eqb_spec x y) as [-> | Hne]; [reflexivity |].
  destruct Hin as [-> | Hin]; [contradiction |].
  pose proof (index_of_nonneg x t) as Hpos.
  replace (Z.to_nat (1 + LabelEncoder.index_of x t))
    with (S (Z.to_nat (LabelEncoder.index_of x t))) by lia.
  simpl. now apply IH.
Qed.

(** X1. When an untrained forecaster's [train] reaches the feature step
    (the input has a usable row), the vocabulary it is left with is the set
    of categories of the usable rows, in strictly increasing order, whether
    the call then succeeds, is refused for too few rows, or fails in
    [fit]. *)
Theorem first_pass_vocabulary (s : ExpensePredictor L) data df :
  is_fitted s = false ->
  normalize data = Some df ->
  (forall c, In c (category_encoder (fst (train L s data)))
             <-> exists r, In r df /\ row_category r = c)
  /\ StronglySorted str_lt (category_encoder (fst (train L s data))).
Proof.
  intros Hflag Hdf. rewrite (train_unfitted_fits_encoder L s data df Hflag Hdf).
  split; [| apply fit_sorted].
  intros c. rewrite fit_In, in_map_iff. split; intros (r & H1 & H2); exists r; auto.
Qed.

(** X2. Every row that leaves [create_features] carries either the rank
    of its category in the vocabulary in force, from which the category is
    recovered, or, when the category is outside it, the code [-1]; while
    the forecaster is untrained the second case does not occur. *)
Theorem category_codes (s : ExpensePredictor L) df fr :
  In fr (snd (create_features L s df)) ->
  let classes := category_encoder (fst (create_features L s df)) in
  let c := row_category (source fr) in
  (In c classes ->
   (0 <= category_encoded fr < Z.of_nat (length classes))%Z
   /\ label_of classes (category_encoded fr) = Some c)
  /\ (~ In c classes -> category_encoded fr = (-1)%Z /\ is_fitted s = true).
Proof.
  unfold create_features. destruct (is_fitted s) eqn:Hflag; simpl.
  - rewrite in_map_iff. intros (r & <- & Hr). simpl.
    destruct (LabelEncoder.mem (row_category r) (category_encoder s)) eqn:E.
    + apply mem_In in E. split; [| contradiction].
      intros _. split; [now apply index_of_bounds | now apply label_of_index_of].
    + split; [| now split].
      intros Hin. apply mem_In in Hin. congruence.
  - rewrite in_map_iff. intros (r & <- & Hr). simpl.
    assert (Hin : In (row_category r) (LabelEncoder.fit (map row_category df))).
    { apply fit_In, in_map. exact Hr. }
    split; [| contradiction].
    intros _. split; [now apply index_of_bounds | now apply label_of_index_of].
Qed.

(** X3. The calendar columns of every row that leaves [create_features]:
    the weekday lies in 0..6, the weekend flag is 1 exactly on weekdays 5
    and 6, the month-start and month-end flags are never both 1, the
    month-start flag is 1 exactly up to day 7 and the month-end flag from
    day 24 on, and for a month in 1..12 the quarter lies in 1..4. *)
Theorem calendar_columns (s : ExpensePredictor L) df fr :
  In fr (snd (create_features L s df)) ->
  (0 <= weekday fr <= 6)%Z
  /\ (is_weekend fr = 1 <-> weekday fr = 5 \/ weekday fr = 6)%Z
  /\ (is_weekend fr = 0 \/ is_weekend fr = 1)%Z
  /\ (is_month_start fr = 1 <-> day_of_month fr <= 7)%Z
  /\ (is_month_end fr = 1 <-> 24 <= day_of_month fr)%Z
  /\ (is_month_start fr + is_month_end fr <= 1)%Z
  /\ (1 <= month fr <= 12 -> 1 <= quarter fr <= 4)%Z.
Proof.
  intros Hin.
  assert (Hf : exists code r, fr = featurize code r).
  { unfold create_features in Hin. destruct (is_fitted s); simpl in Hin;
      apply in_map_iff in Hin; destruct Hin as (r & <- & _); eauto. }
  destruct Hf as (code & r & ->). unfold featurize. simpl.
  pose proof (Z.mod_pos_bound (Calendar.days_from_civil (row_date r) + 3) 7 ltac:(lia)) as Hw.
  unfold Calendar.weekday, Calendar.quarter, Calendar.of_bool.
  set (w := ((Calendar.days_from_civil (row_date r) + 3) mod 7)%Z) in *.
  set (d := Calendar.day (row_date r)).
  set (m := Calendar.month_of (row_date r)).
  assert (Hq : (1 <= m <= 12 -> 1 <= (m - 1) / 3 + 1 <= 4)%Z).
  { intros Hm. Z.to_euclidean_division_equations. lia. }
  destruct (Z.eqb_spec w 5), (Z.eqb_spec w 6), (Z.leb_spec d 7), (Z.geb_spec d 24);
    simpl; repeat split; intros; try assumption; try lia; auto.
Qed.

End EncodingFacts.

Lemma first_pass_vocabulary_witness :
  is_fitted (init Toy.lib) = false
  /\ normalize Toy.mixed = Some [Sample.food_row; Sample.salary_row]
  /\ (In "Salary" (category_encoder (fst (train Toy.lib (init Toy.lib) Toy.mixed)))
      <-> exists r, In r [Sample.food_row; Sample.salary_row] /\ row_category r = "Salary").
Proof.
  split; [reflexivity |]. split; [reflexivity |].
  exact (proj1 (first_pass_vocabulary Toy.lib (init Toy.lib) Toy.mixed
                  [Sample.food_row; Sample.salary_row] eq_refl eq_refl) "Salary").
Defined.

Lemma food_features_in_frame :
  In Sample.food_features
    (snd (create_features Toy.lib (init Toy.lib) [Sample.food_row; Sample.salary_row])).
Proof. left. reflexivity. Qed.

Lemma category_codes_witness :
  In Sample.food_features
    (snd (create_features Toy.lib (init Toy.lib) [Sample.food_row; Sample.salary_row]))
  /\ label_of ["Food"; "Salary"] (category_encoded Sample.food_features) = Some "Food".
Proof.
  split; [exact food_features_in_frame |].
  destruct (category_codes Toy.lib (init Toy.lib) [Sample.food_row; Sample.salary_row]
              Sample.food_features food_features_in_frame) as [Hknown _].
  apply Hknown. left. reflexivity.
Defined.

Lemma calendar_columns_witness :
  In Sample.food_features
    (snd (create_features Toy.lib (init Toy.lib) [Sample.food_row; Sample.salary_row]))
  /\ (is_month_start Sample.food_features + is_month_end Sample.food_features <= 1)%Z.
Proof.
  split; [exact food_features_in_frame |].
  destruct (calendar_columns Toy.lib (init Toy.lib) [Sample.food_row; Sample.salary_row]
              Sample.food_features food_features_in_frame)
    as (_ & _ & _ & _ & _ & Hflags & _).
  exact Hflags.
Defined.

(** ** Preparation *)

Section PreparationFacts.

Context (L : Sklearn).

Lemma normalize_positive data df :
  normalize data = Some df -> List.Forall (fun r => (0 < row_amount r)%Q) df.
Proof.
  unfold normalize. destruct data as [| r data]; [discriminate |].
  match goal with |- match ?f with _ => _ end = _ -> _ => destruct f as [frame |] end;
    [| discriminate].
  destruct (List.filter _ frame) as [| a usable] eqn:E; [discriminate |].
  intros [= <-]. rewrite <- E. apply List.Forall_forall. intros x Hx.
  apply filter_In in Hx. destruct Hx as [_ Hx]. now apply QMicromega.Qlt_bool_iff in Hx.
Qed.

Lemma column_present name (fr : FeatureRow) :
  existsb (String.eqb name)
    ["month"; "weekday"; "is_weekend"; "quarter"; "day_of_month";
     "is_month_start"; "is_month_end"; "category_encoded"] = true ->
  exists v, column name fr = Some v.
Proof.
  unfold column. simpl.
  repeat (destruct (String.eqb name _); [eauto |]). discriminate.
Qed.

Lemma select_row_length names (fr : FeatureRow) :
  missing_column names = None -> length (select_row names fr) = length names.
Proof.
  unfold missing_column, select_row.
  induction names as [| name names IH]; [reflexivity |].
  cbn [find flat_map].
  match goal with |- context [negb ?b] => destruct b eqn:E end;
    cbn [negb]; [| discriminate].
  intros Hrest. destruct (column_present name fr E) as [v ->].
  cbn [app length]. now rewrite IH.
Qed.

(** X4. When [prepare_data] returns a pair, [X] and [y] have one entry
    per usable row and there is at least one; every row of [X] has one value
    per feature column, every target is positive, and the call has changed
    neither the estimator, nor the column list, nor the flag. *)
Theorem prepare_data_shape (s : ExpensePredictor L) data X y :
  snd (prepare_data L s data) = Xy X y ->
  length X = usable_rows data
  /\ length y = usable_rows data
  /\ (0 < usable_rows data)%nat
  /\ List.Forall (fun row => length row = length (feature_columns s)) X
  /\ List.Forall (fun a => (0 < a)%Q) y
  /\ model (fst (prepare_data L s data)) = model s
  /\ feature_columns (fst (prepare_data L s data)) = feature_columns s
  /\ is_fitted (fst (prepare_data L s data)) = is_fitted s.
Proof.
  unfold prepare_data, usable_rows.
  destruct (normalize data) as [df |] eqn:Hdf; [| discriminate].
  pose proof (normalize_nonempty _ _ Hdf) as Hne.
  pose proof (normalize_positive _ _ Hdf) as Hpos.
  pose proof (create_features_length L s df) as Hlen.
  destruct (create_features_frame L s df) as (Hm & Hc & Hf).
  destruct (create_features L s df) as [s1 features]; simpl in *.
  unfold select_columns.
  destruct (missing_column (feature_columns s1)) as [name |] eqn:Hmiss; [discriminate |].
  simpl. intros [= <- <-]. rewrite !length_map, Hlen.
  repeat split; try assumption.
  - destruct df; [contradiction | simpl; lia].
  - apply List.Forall_forall. intros row Hrow. apply in_map_iff in Hrow.
    destruct Hrow as (fr & <- & _). rewrite <- Hc. now apply select_row_length.
  - apply List.Forall_forall. intros a Ha. apply in_map_iff in Ha.
    destruct Ha as (r & <- & Hr). rewrite List.Forall_forall in Hpos. now apply Hpos.
Qed.

(** X5. An input that has no [amount] column and lacks one of the two
    total columns gives [(None, None)]: [train] returns the no-valid-data
    failure and leaves the forecaster as it was, whatever the totals that
    are present. *)
Theorem no_amount_column (s : ExpensePredictor L) data :
  has_column amount data = false ->
  has_column total_expense data && has_column total_income data = false ->
  prepare_data L s data = (s, NoneNone)
  /\ train L s data = (s, Py.Returns (false, "No valid data for training")).
Proof.
  intros Ha Ht.
  assert (Hn : normalize data = None).
  { unfold normalize. destruct data as [| r data]; [reflexivity |]. now rewrite Ht, Ha. }
  assert (Hp : prepare_data L s data = (s, NoneNone)).
  { unfold prepare_data. now rewrite Hn. }
  split; [exact Hp |]. unfold train. now rewrite Hp.
Qed.

(** With both total columns, the frame is the record-by-record split. *)
Lemma rows_of_total_columns data :
  has_column total_expense data = true ->
  has_column total_income data = true ->
  match normalize data with
  | Some rows => Permutation rows (flat_map split_record data)
  | None => flat_map split_record data = []
  end.
Proof.
  intros He Hi. rewrite (normalize_paired _ He Hi).
  pose proof (sides_split data) as Hperm.
  destruct (_ ++ _)%list as [| a rows].
  - apply Permutation_nil in Hperm. exact Hperm.
  - exact Hperm.
Qed.

(** X6. As soon as both total columns exist in the input, the [amount]
    column is not read: the prepared frame is, up to order, one row per
    record and direction whose total is positive, so a record that carries
    only an [amount] contributes no row. *)
Theorem total_columns_override_amount data :
  has_column total_expense data = true ->
  has_column total_income data = true ->
  match normalize data with
  | Some rows => Permutation rows (flat_map split_record data)
  | None => flat_map split_record data = []
  end.
Proof. apply rows_of_total_columns. Qed.

Lemma filter_omap_plain data :
  List.filter (fun r => Py.gt (row_amount r) 0) (omap plain_row data : list Row)
  = omap kept_row data.
Proof.
  induction data as [| r data IH]; [reflexivity |].
  cbn. unfold plain_row at 1, kept_row at 1.
  destruct (amount r) as [a |]; [| exact IH].
  simpl. destruct (Py.gt a 0); [now rewrite IH | exact IH].
Qed.

(** X7. Without both total columns but with an [amount] column, the
    prepared frame holds one row per record whose amount is present and
    positive, in input order, with the record's own date, category and
    transaction type; there is no frame when no amount is positive. *)
Theorem plain_format_rows data :
  has_column total_expense data && has_column total_income data = false ->
  has_column amount data = true ->
  normalize data
  = match omap kept_row data : list Row with
    | [] => None
    | rows => Some rows
    end.
Proof.
  intros Ht Ha. unfold normalize. destruct data as [| r data]; [discriminate |].
  rewrite Ht, Ha. cbv zeta iota. now rewrite filter_omap_plain.
Qed.

End PreparationFacts.

Lemma prepare_data_shape_witness :
  snd (prepare_data Toy.lib (init Toy.lib) Toy.mixed)
  = Xy [[3; 5; 1; 1; 2; 1; 0; 0]; [3; 4; 0; 1; 1; 1; 0; 1]]%Z [500; 50000]%Q
  /\ usable_rows Toy.mixed = 2%nat.
Proof.
  assert (H : snd (prepare_data Toy.lib (init Toy.lib) Toy.mixed)
              = Xy [[3; 5; 1; 1; 2; 1; 0; 0]; [3; 4; 0; 1; 1; 1; 0; 1]]%Z [500; 50000]%Q)
    by reflexivity.
  split; [exact H |].
  destruct (prepare_data_shape Toy.lib (init Toy.lib) Toy.mixed _ _ H) as [Hrows _].
  symmetry. exact Hrows.
Defined.

Lemma no_amount_column_witness :
  let data := [{| date := Calendar.mkDate 2024 3 1; category := "Food"; amount := None;
                  total_expense := Some 500%Q; total_income := None;
                  transaction_type := None |}] in
  has_column amount data = false
  /\ snd (train Toy.lib (init Toy.lib) data)
     = Py.Returns (false, "No valid data for training").
Proof.
  intros data. split; [reflexivity |].
  destruct (no_amount_column Toy.lib (init Toy.lib) data eq_refl eq_refl) as [_ Htrain].
  now rewrite Htrain.
Defined.

Lemma total_columns_override_amount_witness :
  let data := [Sample.plain (Calendar.mkDate 2024 3 1) "Rent" 700 "expense";
               Toy.paired (Calendar.mkDate 2024 3 2) "Food" 500 0] in
  has_column total_expense data = true
  /\ has_column total_income data = true
  /\ normalize data = Some [Sample.food_row]
  /\ Permutation [Sample.food_row] (flat_map split_record data).
Proof.
  intros data. split; [reflexivity |]. split; [reflexivity |]. split; [reflexivity |].
  exact (total_columns_override_amount data eq_refl eq_refl).
Defined.

Lemma plain_format_rows_witness :
  let data := [Sample.plain (Calendar.mkDate 2024 3 1) "Rent" 700 "expense";
               Sample.plain (Calendar.mkDate 2024 3 2) "Refund" 0 "income";
               Sample.plain (Calendar.mkDate 2024 3 3) "Salary" 50000 "income"] in
  has_column amount data = true
  /\ normalize data
     = match omap kept_row data : list Row with
       | [] => None
       | rows => Some rows
       end.
Proof.
  intros data. split; [reflexivity |].
  exact (plain_format_rows data eq_refl eq_refl).
Defined.

(** ** Training *)

Section MoreTrainingFacts.

Context (L : Sklearn).

(** X8. When [fit] returns but the evaluation that follows it raises (in
    [predict] on the held-out rows or in one of the two metrics), [train]
    returns the training-failed result although the forecaster is now
    trained: the flag is up and the estimator is the fitted one. *)
Theorem evaluation_fault_leaves_trained (s : ExpensePredictor L) data X y
  X_train X_test y_train y_test m e :
  snd (prepare_data L s data) = Xy X y ->
  (10 <= length X)%nat ->
  train_test_split L X y = ((X_train, X_test), (y_train, y_test)) ->
  fit L (model s) X_train y_train = (m, None) ->
  (predict L m X_test = Py.Raises e
   \/ exists y_pred,
       predict L m X_test = Py.Returns y_pred
       /\ (mean_absolute_error L y_test y_pred = Py.Raises e
           \/ exists mae,
               mean_absolute_error L y_test y_pred = Py.Returns mae
               /\ r2_score L y_test y_pred = Py.Raises e)) ->
  snd (train L s data) = Py.Returns (false, "Training failed: " ++ e)
  /\ is_fitted (fst (train L s data)) = true
  /\ model (fst (train L s data)) = m.
Proof.
  intros Hprep Hlen Hsplit Hfit Hfault.
  destruct (prepare_data L s data) as [s1 p] eqn:Hpd. simpl in Hprep. subst p.
  destruct (prepare_data_Xy _ _ _ _ _ _ Hpd) as (df & _ & Hs1 & _ & _).
  destruct (create_features_frame L s df) as (Hm & _ & _). rewrite <- Hs1 in Hm.
  unfold train. rewrite Hpd, Hm.
  destruct (Nat.ltb_spec (length X) 10) as [Hlt | _]; [lia |].
  rewrite Hsplit, Hfit.
  destruct Hfault as [-> | (y_pred & -> & [-> | (mae & -> & ->)])]; repeat split.
Qed.

Lemma train_success (s : ExpensePredictor L) data msg :
  snd (train L s data) = Py.Returns (true, msg) ->
  is_fitted (fst (train L s data)) = true /\ (10 <= usable_rows data)%nat.
Proof.
  unfold train, usable_rows.
  destruct (prepare_data L s data) as [s1 [| name | X y]] eqn:Hpd; simpl;
    try discriminate.
  destruct (prepare_data_Xy _ _ _ _ _ _ Hpd) as (df & -> & Hs1 & Hlen & _).
  destruct (Nat.ltb_spec (length X) 10) as [Hlt | Hge]; [discriminate |].
  destruct (train_test_split L X y) as [[X_train X_test] [y_train y_test]].
  destruct (fit L (model s1) X_train y_train) as [m [e |]]; [discriminate |].
  destruct (predict L m X_test) as [y_pred | e]; [| discriminate].
  destruct (mean_absolute_error L y_test y_pred) as [mae | e]; [| discriminate].
  destruct (r2_score L y_test y_pred) as [r2 | e]; [| discriminate].
  simpl. intros _. split; [reflexivity | lia].
Qed.

(** X9. [train] never lowers the flag and never changes the column list,
    whatever it returns; when it returns success the forecaster is trained
    and the input had at least ten usable rows. *)
Theorem train_invariants (s : ExpensePredictor L) data :
  (is_fitted s = true -> is_fitted (fst (train L s data)) = true)
  /\ feature_columns (fst (train L s data)) = feature_columns s
  /\ (forall msg,
        snd (train L s data) = Py.Returns (true, msg) ->
        is_fitted (fst (train L s data)) = true /\ (10 <= usable_rows data)%nat).
Proof.
  destruct (train_state L s data) as (_ & Hc & Hflag).
  rewrite prepare_data_state in Hc, Hflag.
  assert (Hprep : feature_columns
                    match normalize data with
                    | Some df => fst (create_features L s df)
                    | None => s
                    end = feature_columns s
                  /\ is_fitted
                       match normalize data with
                       | Some df => fst (create_features L s df)
                       | None => s
                       end = is_fitted s).
  { destruct (normalize data) as [df |]; [| now split].
    destruct (create_features_frame L s df) as (_ & H1 & H2). now split. }
  destruct Hprep as [Hc' Hf']. rewrite Hc' in Hc. rewrite Hf' in Hflag.
  split; [exact Hflag |]. split; [exact Hc |]. apply train_success.
Qed.

End MoreTrainingFacts.

Lemma evaluation_fault_leaves_trained_witness :
  is_fitted (init Faulty.lib) = false
  /\ snd (train Faulty.lib (init Faulty.lib) (Toy.expenses 10 "Food" 500))
     = Py.Returns (false, "Training failed: Input contains NaN.")
  /\ is_fitted (fst (train Faulty.lib (init Faulty.lib) (Toy.expenses 10 "Food" 500))) = true.
Proof.
  split; [reflexivity |].
  destruct (snd (prepare_data Faulty.lib (init Faulty.lib) (Toy.expenses 10 "Food" 500)))
    as [| name | X y] eqn:Hprep; try (vm_compute in Hprep; discriminate).
  destruct (train_test_split Faulty.lib X y) as [[X_train X_test] [y_train y_test]] eqn:Hsplit.
  pose proof Hprep as Hrows. vm_compute in Hrows. injection Hrows as <- <-.
  pose proof Hsplit as Hparts. vm_compute in Hparts.
  injection Hparts as <- <- <- <-.
  destruct (fun Hlen Hfit =>
              evaluation_fault_leaves_trained Faulty.lib (init Faulty.lib) _ _ _ _ _ _ _
                (Some 500%Q) "Input contains NaN." Hprep Hlen Hsplit Hfit)
    as (Hmsg & Hflag & _);
    [vm_compute; lia | vm_compute; reflexivity | | split; assumption].
  right. exists [500%Q; 500%Q]. split; [vm_compute; reflexivity |].
  left. reflexivity.
Defined.

Lemma train_invariants_witness :
  snd (train Toy.lib (init Toy.lib) (Toy.expenses 10 "Food" 500))
  = Py.Returns (true, "Model trained successfully. MAE: 0, R²: 1")
  /\ is_fitted (fst (train Toy.lib (init Toy.lib) (Toy.expenses 10 "Food" 500))) = true
  /\ (10 <= usable_rows (Toy.expenses 10 "Food" 500))%nat.
Proof.
  assert (H : snd (train Toy.lib (init Toy.lib) (Toy.expenses 10 "Food" 500))
              = Py.Returns (true, "Model trained successfully. MAE: 0, R²: 1"))
    by (vm_compute; reflexivity).
  split; [exact H |].
  destruct (train_invariants Toy.lib (init Toy.lib) (Toy.expenses 10 "Food" 500))
    as (_ & _ & Hsuccess).
  exact (Hsuccess _ H).
Defined.

(** ** Predictions, continued *)

Section MorePredictionFacts.

Context (L : Sklearn).

(** X10. For a trained forecaster with the constructor's column list and
    a category of its vocabulary, [predict_category] asks the estimator
    about exactly one row: the target month (the current one by default),
    then weekday, weekend flag, quarter, day and the two month flags of the
    current date, not of the target month, then the rank of the category.
    Any raise, or an empty answer, gives [(0, 0)]. *)
Theorem predict_category_query (s : ExpensePredictor L) now c t tm :
  is_fitted s = true ->
  In c (category_encoder s) ->
  feature_columns s = feature_columns (init L) ->
  predict_category L s now c t tm
  = match predict L (model s)
            [query_row now tm (LabelEncoder.index_of c (category_encoder s))] with
    | Py.Returns (prediction :: _) =>
        match feature_importances_ L (model s) with
        | Py.Returns importance => (Py.max 0 prediction, confidence_of importance)
        | Py.Raises _ => (0, 0)%Q
        end
    | _ => (0, 0)%Q
    end.
Proof.
  intros Hflag Hin Hcols. unfold predict_category. rewrite Hflag. simpl negb. cbv iota.
  apply mem_In in Hin. rewrite Hin. simpl negb. cbv iota.
  unfold create_features. rewrite Hflag. simpl negb. cbv iota.
  cbn [map row_category]. rewrite Hin, Hcols.
  destruct tm as [m |]; reflexivity.
Qed.

(** X11. The direction passed to [predict_category] never reaches the
    estimator: two calls that differ only in it return the same pair. *)
Theorem direction_is_not_a_feature (s : ExpensePredictor L) now c t t' tm :
  predict_category L s now c t tm = predict_category L s now c t' tm.
Proof. apply predict_category_ignores_direction. Qed.

Lemma predict_category_outside (s : ExpensePredictor L) now c t tm :
  LabelEncoder.mem c (category_encoder s) = false ->
  predict_category L s now c t tm = (0, 0)%Q.
Proof.
  intros Hout. unfold predict_category. destruct (is_fitted s); [| reflexivity].
  now rewrite Hout.
Qed.

Lemma next_month_entries (s : ExpensePredictor L) now categories p :
  In p (predict_next_month L s now categories) ->
  is_fitted s = true
  /\ exists c, In c categories
               /\ In p (predict_step L s now (next_month_of now) [] c).
Proof.
  intros Hin. destruct (is_fitted s) eqn:Hflag.
  - split; [reflexivity |].
    rewrite (predict_next_month_fitted L s now categories Hflag) in Hin.
    apply in_flat_map in Hin. destruct Hin as (c & Hc & Hp). eauto.
  - unfold predict_next_month in Hin. rewrite Hflag in Hin. destruct Hin.
Qed.

(** An entry exists only for a category of the vocabulary. *)
Lemma next_month_entry_known (s : ExpensePredictor L) now categories p :
  In p (predict_next_month L s now categories) ->
  In (p_category p) categories /\ In (p_category p) (category_encoder s).
Proof.
  intros Hin. destruct (next_month_entries s now categories p Hin) as (_ & c & Hc & Hp).
  apply predict_step_entry in Hp. destruct Hp as (<- & Hsig & _).
  split; [exact Hc |]. apply mem_In.
  destruct (LabelEncoder.mem (p_category p) (category_encoder s)) eqn:E; [reflexivity |].
  unfold has_signal, forecast in Hsig.
  rewrite !(predict_category_outside s now _ _ _ E) in Hsig. discriminate.
Qed.

(** The two directions of an entry coincide. *)
Lemma next_month_entry_symmetric (s : ExpensePredictor L) now categories p :
  In p (predict_next_month L s now categories) ->
  predicted_expense p = predicted_income p
  /\ expense_confidence p = income_confidence p
  /\ p_transaction_type p = "income".
Proof.
  intros Hin. destruct (next_month_entries s now categories p Hin) as (_ & c & _ & Hp).
  apply predict_step_entry in Hp. destruct Hp as (_ & _ & Hexp & Hinc & Htag).
  unfold forecast in Hexp, Hinc.
  rewrite (predict_category_ignores_direction L s now c "expense" "income") in Hexp.
  rewrite <- Hinc in Hexp. injection Hexp as He Hc.
  split; [exact He |]. split; [exact Hc |].
  rewrite Htag, He. unfold Py.gt.
  destruct (QMicromega.Qlt_bool (predicted_income p) (predicted_income p)) eqn:E;
    [| reflexivity].
  apply QMicromega.Qlt_bool_iff in E. now apply Qlt_irrefl in E.
Qed.

(** X12. Every entry returned by [predict_next_month] has the same
    amount and the same confidence in both directions and is tagged
    [income]: the [expense] tag is never produced. *)
Theorem next_month_always_income (s : ExpensePredictor L) now categories p :
  In p (predict_next_month L s now categories) ->
  predicted_expense p = predicted_income p
  /\ expense_confidence p = income_confidence p
  /\ p_transaction_type p = "income".
Proof. apply next_month_entry_symmetric. Qed.

Lemma next_month_categories (s : ExpensePredictor L) now categories :
  is_fitted s = true ->
  map p_category (predict_next_month L s now categories)
  = List.filter (has_signal L s now) categories.
Proof.
  intros Hflag. rewrite (predict_next_month_fitted L s now categories Hflag).
  induction categories as [| c categories IH]; [reflexivity |].
  simpl. rewrite map_app, IH, predict_step_categories.
  now destruct (has_signal L s now c).
Qed.

(** X13. [predict_next_month] returns at most one entry per input
    category, and only for categories of the vocabulary: a category the
    forecaster was not fitted on is silently left out. *)
Theorem next_month_skips_unknown (s : ExpensePredictor L) now categories :
  (length (predict_next_month L s now categories) <= length categories)%nat
  /\ forall p,
      In p (predict_next_month L s now categories) ->
      In (p_category p) categories /\ In (p_category p) (category_encoder s).
Proof.
  split; [| intros p; apply next_month_entry_known].
  destruct (is_fitted s) eqn:Hflag.
  - rewrite <- (length_map p_category).
    rewrite (next_month_categories s now categories Hflag).
    apply filter_length_le.
  - unfold predict_next_month. rewrite Hflag. simpl. lia.
Qed.

(** X14. Training an already trained forecaster again, on whatever data
    and with whatever outcome, does not widen what it forecasts:
    [predict_next_month] on the retrained forecaster still returns entries
    only for categories of the vocabulary it had before. *)
Theorem retrain_forecasts_old_vocabulary (s : ExpensePredictor L) data now categories p :
  is_fitted s = true ->
  In p (predict_next_month L (fst (train L s data)) now categories) ->
  In (p_category p) (category_encoder s).
Proof.
  intros Hflag Hin. apply next_month_entry_known in Hin. destruct Hin as [_ Hin].
  destruct (train_fitted_keeps_encoder L s data Hflag) as [Henc _].
  now rewrite Henc in Hin.
Qed.

End MorePredictionFacts.

Lemma predict_category_query_witness :
  is_fitted Toy.trained = true
  /\ In "Food" (category_encoder Toy.trained)
  /\ query_row Toy.today (Some 1%Z) 0 = [1; 6; 1; 4; 15; 0; 0; 0]%Z
  /\ predict_category Toy.lib Toy.trained Toy.today "Food" "expense" (Some 1%Z)
     = (500, 50)%Q.
Proof.
  split; [reflexivity |]. split; [exact toy_trained_knows_food |].
  split; [reflexivity |].
  rewrite (predict_category_query Toy.lib Toy.trained Toy.today "Food" "expense" (Some 1%Z)
             eq_refl toy_trained_knows_food eq_refl).
  vm_compute. reflexivity.
Defined.

(** The entry for [Food] after the retrain on [Rent] expenses of 900. *)
Lemma retrained_food_entry :
  In {| p_category := "Food"; predicted_expense := 900; predicted_income := 900;
        expense_confidence := 50; income_confidence := 50;
        p_transaction_type := "income" |}
    (predict_next_month Toy.lib
       (fst (train Toy.lib Toy.trained (Toy.expenses 10 "Rent" 900)))
       Toy.today ["Food"; "Rent"]).
Proof. vm_compute. left. reflexivity. Qed.

Lemma trained_food_entry :
  In Sample.food_entry (predict_next_month Toy.lib Toy.trained Toy.today ["Food"; "Rent"]).
Proof. vm_compute. left. reflexivity. Qed.

Lemma next_month_always_income_witness :
  In Sample.food_entry (predict_next_month Toy.lib Toy.trained Toy.today ["Food"; "Rent"])
  /\ p_transaction_type Sample.food_entry = "income".
Proof.
  split; [exact trained_food_entry |].
  destruct (next_month_always_income Toy.lib Toy.trained Toy.today ["Food"; "Rent"]
              _ trained_food_entry) as (_ & _ & Htag).
  exact Htag.
Defined.

Lemma next_month_skips_unknown_witness :
  (length (predict_next_month Toy.lib Toy.trained Toy.today ["Food"; "Rent"]) <= 2)%nat
  /\ In "Food" (category_encoder Toy.trained).
Proof.
  destruct (next_month_skips_unknown Toy.lib Toy.trained Toy.today ["Food"; "Rent"])
    as [Hlen Hknown].
  split; [exact Hlen |].
  exact (proj2 (Hknown _ trained_food_entry)).
Defined.

Lemma retrain_forecasts_old_vocabulary_witness :
  is_fitted Toy.trained = true
  /\ In "Food" (category_encoder Toy.trained)
  /\ map p_category
       (predict_next_month Toy.lib
          (fst (train Toy.lib Toy.trained (Toy.expenses 10 "Rent" 900)))
          Toy.today ["Food"; "Rent"])
     = ["Food"].
Proof.
  split; [reflexivity |]. split.
  - exact (retrain_forecasts_old_vocabulary Toy.lib Toy.trained
             (Toy.expenses 10 "Rent" 900) Toy.today ["Food"; "Rent"] _
             eq_refl retrained_food_entry).
  - vm_compute. reflexivity.
Defined.

(** ** Persistence, continued *)

Section MorePersistenceFacts.

Context (L : Sklearn).

Lemma head_upto_last_sep_None p :
  OsPath.head_upto_last_sep p = None <-> has_separator p = false.
Proof.
  induction p as [| c r IH]; simpl; [tauto |].
  destruct (OsPath.head_upto_last_sep r) as [h |].
  - split; [discriminate |]. intros H. apply orb_false_iff in H.
    destruct H as [_ H]. apply IH in H. discriminate.
  - destruct (OsPath.is_sep c); simpl; [split; discriminate |].
    split; intros _; [now apply IH | reflexivity].
Qed.

Lemma head_upto_last_sep_nonempty p h :
  OsPath.head_upto_last_sep p = Some h -> h <> "".
Proof.
  destruct p as [| c r]; simpl; [discriminate |].
  destruct (OsPath.head_upto_last_sep r); [now intros [= <-] |].
  destruct (OsPath.is_sep c); [now intros [= <-] | discriminate].
Qed.

Lemma rstrip_sep_empty p : OsPath.rstrip_sep p = "" -> OsPath.all_sep p = true.
Proof.
  induction p as [| c r IH]; simpl; [reflexivity |].
  destruct (OsPath.rstrip_sep r); [| discriminate].
  destruct (OsPath.is_sep c); [intros _; now apply IH | discriminate].
Qed.

(** The directory part is empty exactly for a path without a separator. *)
Lemma dirname_empty p : OsPath.dirname p = "" <-> has_separator p = false.
Proof.
  unfold OsPath.dirname. rewrite <- head_upto_last_sep_None.
  destruct (OsPath.head_upto_last_sep p) as [h |] eqn:E; [| split; reflexivity].
  pose proof (head_upto_last_sep_nonempty _ _ E) as Hne.
  split; [| discriminate]. intros H. exfalso.
  destruct (String.eqb_spec h "") as [-> | _]; [contradiction |]. simpl in H.
  destruct (OsPath.all_sep h) eqn:Hall; simpl in H; [contradiction |].
  apply rstrip_sep_empty in H. congruence.
Qed.

(** X15. [save_model] needs a directory part. With a bare file name,
    one without ['/'], [os.path.dirname] is empty, [os.makedirs] raises
    inside the [try] block, and a trained forecaster gets the failure with
    the message of that exception, nothing being written. Hence a call that
    returns success was made on a trained forecaster with a path that holds
    a ['/']. *)
Theorem save_model_needs_directory (s : ExpensePredictor L) filepath
  (fs : gmap string (File (Estimator L))) :
  (is_fitted s = true ->
   has_separator filepath = false ->
   save_model L s filepath fs
   = (fs, (false, "Failed to save model: [Errno 2] No such file or directory: ''")))
  /\ (fst (snd (save_model L s filepath fs)) = true ->
      is_fitted s = true /\ has_separator filepath = true).
Proof.
  pose proof (dirname_empty filepath) as Hdir.
  unfold save_model, OsPath.makedirs. split.
  - intros Hflag Hsep. rewrite Hflag. simpl negb. cbv iota.
    apply Hdir in Hsep. now rewrite Hsep.
  - destruct (is_fitted s); simpl; [| discriminate].
    destruct (String.eqb_spec (OsPath.dirname filepath) "") as [E | E];
      simpl; [discriminate |].
    intros _. split; [reflexivity |].
    destruct (has_separator filepath); [reflexivity |].
    now destruct E; apply Hdir.
Qed.

(** X17. [load_model] returns success exactly when the path holds a
    readable dictionary with all four keys, and the forecaster then has
    exactly these four values; when it returns a failure the flag is what it
    was, and for a missing or unreadable file so is the whole forecaster. *)
Theorem load_model_outcomes (s : ExpensePredictor L) filepath
  (fs : gmap string (File (Estimator L))) :
  (fst (snd (load_model L s filepath fs)) = true <->
   exists m c f b,
     fs !! filepath
     = Some (Pickled {| md_model := Some m; md_category_encoder := Some c;
                        md_feature_columns := Some f; md_is_fitted := Some b |})
     /\ fst (load_model L s filepath fs)
        = {| model := m; category_encoder := c; feature_columns := f; is_fitted := b |})
  /\ (fst (snd (load_model L s filepath fs)) = false ->
      is_fitted (fst (load_model L s filepath fs)) = is_fitted s
      /\ ((fs !! filepath = None \/ exists e, fs !! filepath = Some (Unreadable e)) ->
          fst (load_model L s filepath fs) = s)).
Proof.
  unfold load_model. split; [split |].
  - intros Hok.
    destruct (fs !! filepath) as [[[[m |] [c |] [f |] [b |]] | e] |]; simpl in Hok;
      try discriminate.
    exists m, c, f, b. split; reflexivity.
  - intros (m & c & f & b & -> & _). reflexivity.
  - intros Hfail.
    destruct (fs !! filepath) as [[[[m |] [c |] [f |] [b |]] | e] |]; simpl in *;
      try discriminate;
      (split; [reflexivity | intros [H | [e' H]]; try discriminate; reflexivity]).
Qed.


End MorePersistenceFacts.

Lemma save_model_needs_directory_witness :
  is_fitted Toy.trained = true
  /\ has_separator "expense_predictor.joblib" = false
  /\ snd (save_model Toy.lib Toy.trained "expense_predictor.joblib" ∅)
     = (false, "Failed to save model: [Errno 2] No such file or directory: ''").
Proof.
  split; [reflexivity |]. split; [reflexivity |].
  destruct (save_model_needs_directory Toy.lib Toy.trained "expense_predictor.joblib" ∅)
    as [Hbare _].
  now rewrite (Hbare eq_refl eq_refl).
Defined.

Lemma load_model_outcomes_witness :
  fst (snd (load_model Toy.lib Toy.trained "model/expense_predictor.joblib" ∅)) = false
  /\ is_fitted (fst (load_model Toy.lib Toy.trained "model/expense_predictor.joblib" ∅))
     = is_fitted Toy.trained.
Proof.
  assert (Hfail : fst (snd (load_model Toy.lib Toy.trained
                              "model/expense_predictor.joblib" ∅)) = false)
    by reflexivity.
  split; [exact Hfail |].
  destruct (load_model_outcomes Toy.lib Toy.trained "model/expense_predictor.joblib" ∅)
    as [_ Hkeep].
  exact (proj1 (Hkeep Hfail)).
Defined.


(** ** The sample model and its loader *)

Section SampleModelFacts.

Context (L : Sklearn).

Lemma uniform_lower lo hi u : (lo <= hi)%Q -> (0 <= u)%Q -> (lo <= uniform lo hi u)%Q.
Proof. unfold uniform. intros H1 H2. nra. Qed.

Lemma gt_zero v : (0 < v)%Q -> Py.gt v 0 = true.
Proof. intros H. now apply QMicromega.Qlt_bool_iff. Qed.

(** One pass of the loop gives one row: at least 50, in the direction of
    its category. *)
Lemma split_sample_record start d :
  (0 <= unit_sample d)%Q ->
  exists row,
    split_record (sample_record start d) = [row]
    /\ (50 <= row_amount row)%Q
    /\ row_category row = choice d
    /\ row_type row
       = Some (if LabelEncoder.mem (choice d) ["Salary"; "Family Support"]
               then "income" else "expense").
Proof.
  intros Hu. unfold sample_record, sample_amount.
  destruct (LabelEncoder.mem (choice d) ["Salary"; "Family Support"]);
    [| destruct (LabelEncoder.mem (choice d) ["Debt Payment"; "Saving/Investment"]);
       [| destruct (LabelEncoder.mem (choice d) ["Food"; "Groceries"; "Utility"])]];
    unfold split_record; cbn [total_expense total_income date category String.eqb
                              Ascii.eqb Bool.eqb];
    match goal with
    | |- context [Py.gt (uniform ?lo ?hi ?u) 0] =>
        pose proof (uniform_lower lo hi u ltac:(lra) Hu) as Hlow;
        rewrite (gt_zero (uniform lo hi u)) by lra
    end;
    (eexists; split; [reflexivity |]; cbn [row_amount row_category row_type];
     split; [lra | split; reflexivity]).
Qed.

Lemma sample_records_split start ds :
  List.Forall (fun d => (0 <= unit_sample d)%Q) ds ->
  length (flat_map split_record (map (sample_record start) ds)) = length ds
  /\ List.Forall (fun row => (50 <= row_amount row)%Q)
       (flat_map split_record (map (sample_record start) ds)).
Proof.
  induction 1 as [| d ds Hd _ [IHlen IHall]]; [split; [reflexivity | constructor] |].
  destruct (split_sample_record start d Hd) as (row & Hrow & Hamount & _).
  simpl. rewrite Hrow. simpl. split; [now rewrite IHlen | now constructor].
Qed.

Lemma sample_record_columns start d ds :
  has_column total_expense (map (sample_record start) (d :: ds)) = true
  /\ has_column total_income (map (sample_record start) (d :: ds)) = true.
Proof.
  unfold has_column, sample_record. simpl.
  destruct (sample_amount (choice d) (unit_sample d)). split; reflexivity.
Qed.

Lemma sample_draws_sound rng :
  sound_rng rng -> List.Forall (fun d => (0 <= unit_sample d)%Q) (map rng (seq 0 500)).
Proof.
  intros Hrng. apply List.Forall_forall. intros d Hd. apply in_map_iff in Hd.
  destruct Hd as (i & <- & Hi). apply in_seq in Hi. apply Hrng. lia.
Qed.

Lemma sample_data_map now rng :
  sample_data now rng
  = map (sample_record (Timedelta.add_days now (-180))) (map rng (seq 0 500)).
Proof. unfold sample_data. now rewrite map_map. Qed.

(** The sample data through the preparation. *)
Lemma sample_data_rows now rng :
  sound_rng rng ->
  usable_rows (sample_data now rng) = 500%nat
  /\ exists rows, normalize (sample_data now rng) = Some rows
                  /\ List.Forall (fun row => (50 <= row_amount row)%Q) rows.
Proof.
  intros Hrng. pose proof (sample_draws_sound rng Hrng) as Hds.
  rewrite sample_data_map. unfold usable_rows.
  set (start := Timedelta.add_days now (-180)).
  destruct (sample_records_split start _ Hds) as [Hlen Hall].
  rewrite length_map, length_seq in Hlen.
  assert (Hcols : has_column total_expense (map (sample_record start) (map rng (seq 0 500)))
                  = true
                  /\ has_column total_income
                       (map (sample_record start) (map rng (seq 0 500))) = true).
  { change (seq 0 500) with (0%nat :: seq 1 499). apply sample_record_columns. }
  destruct Hcols as [He Hi]. rewrite (normalize_paired _ He Hi).
  pose proof (sides_split (map (sample_record start) (map rng (seq 0 500)))) as Hperm.
  destruct (_ ++ _)%list as [| a rows].
  - apply Permutation_nil in Hperm. rewrite Hperm in Hlen. discriminate.
  - split.
    + rewrite (Permutation_length Hperm). exact Hlen.
    + exists (a :: rows). split; [reflexivity |].
      rewrite List.Forall_forall in Hall |- *. intros row Hrow. apply Hall.
      eapply Permutation_in; eassumption.
Qed.

(** X19. When the unit samples are not negative, each of the 500 sample
    transactions gives exactly one usable row, of amount at least 50: the
    sample data has 500 usable rows. *)
Theorem sample_data_usable now rng :
  sound_rng rng ->
  usable_rows (sample_data now rng) = 500%nat
  /\ exists rows, normalize (sample_data now rng) = Some rows
                  /\ List.Forall (fun row => (50 <= row_amount row)%Q) rows.
Proof. apply sample_data_rows. Qed.

(** With a column list the frame has and ten usable rows, [train] goes
    through its [try] block: it returns success, or the training-failed
    failure. *)
Lemma train_enough_rows (s : ExpensePredictor L) data :
  missing_column (feature_columns s) = None ->
  (10 <= usable_rows data)%nat ->
  (exists msg, snd (train L s data) = Py.Returns (true, msg)
               /\ is_fitted (fst (train L s data)) = true)
  \/ (exists e, snd (train L s data) = Py.Returns (false, "Training failed: " ++ e)).
Proof.
  intros Hcols Hrows. unfold usable_rows in Hrows. unfold train.
  rewrite (prepare_data_present L s data Hcols).
  destruct (normalize data) as [df |]; [| lia].
  pose proof (create_features_length L s df) as Hlen.
  destruct (create_features L s df) as [s1 features]; cbn [fst snd] in *.
  rewrite length_map, Hlen.
  destruct (Nat.ltb_spec (length df) 10) as [Hlt | _]; [lia |].
  destruct (train_test_split L _ _) as [[X_train X_test] [y_train y_test]].
  destruct (fit L (model s1) X_train y_train) as [m [e |]]; [right; eauto |].
  destruct (predict L m X_test) as [y_pred | e]; [| right; eauto].
  destruct (mean_absolute_error L y_test y_pred) as [mae | e]; [| right; eauto].
  destruct (r2_score L y_test y_pred) as [r2 | e]; [| right; eauto].
  left. eauto.
Qed.

(** What a successful [load_model] found at the path. *)
Lemma load_model_success (s : ExpensePredictor L) filepath
  (fs : gmap string (File (Estimator L))) :
  fst (snd (load_model L s filepath fs)) = true ->
  fs !! filepath = Some (Pickled (model_data L (fst (load_model L s filepath fs)))).
Proof.
  unfold load_model.
  destruct (fs !! filepath) as [[[[m |] [c |] [f |] [b |]] | e] |]; simpl;
    try discriminate. reflexivity.
Qed.

Lemma load_model_saved (s s0 : ExpensePredictor L) filepath
  (fs : gmap string (File (Estimator L))) :
  fs !! filepath = Some (Pickled (model_data L s)) ->
  load_model L s0 filepath fs = (s, (true, "Model loaded successfully")).
Proof. intros H. unfold load_model. rewrite H. simpl. now destruct s. Qed.

(** The two ways [create_sample_model] ends when the unit samples are
    not negative. *)
Lemma create_sample_model_cases now rng (fs : gmap string (File (Estimator L))) :
  sound_rng rng ->
  (create_sample_model L now rng fs
   = (<[model_path := Pickled (model_data L (fst (train L (init L) (sample_data now rng))))]> fs,
      Py.Returns true)
   /\ is_fitted (fst (train L (init L) (sample_data now rng))) = true)
  \/ (create_sample_model L now rng fs = (fs, Py.Returns false)
      /\ exists e, snd (train L (init L) (sample_data now rng))
                   = Py.Returns (false, "Training failed: " ++ e)).
Proof.
  intros Hrng. destruct (sample_data_rows now rng Hrng) as [Hrows _].
  destruct (train_enough_rows (init L) (sample_data now rng) eq_refl ltac:(lia))
    as [(msg & Hmsg & Hflag) | (e & He)].
  - left. split; [| exact Hflag]. unfold create_sample_model.
    destruct (train L (init L) (sample_data now rng)) as [s r]; simpl in *. subst r.
    unfold save_model. rewrite Hflag. reflexivity.
  - right. split; [| eauto]. unfold create_sample_model.
    destruct (train L (init L) (sample_data now rng)) as [s r]; simpl in *. now subst r.
Qed.

(** X20. When the unit samples are not negative, the training step of
    [create_sample_model] never stops for lack of data: [train] on the
    sample data either succeeds, with the flag up, or returns the
    training-failed result. When [train] returns a failure,
    [create_sample_model] returns [False] and writes nothing. Whenever
    [create_sample_model] returns [True], the forecaster was trained and
    [load_model] restores it from [model/expense_predictor.joblib]. *)
Theorem create_sample_model_outcome now rng (s0 : ExpensePredictor L)
  (fs : gmap string (File (Estimator L))) :
  sound_rng rng ->
  ((exists msg, snd (train L (init L) (sample_data now rng)) = Py.Returns (true, msg)
                /\ is_fitted (fst (train L (init L) (sample_data now rng))) = true)
   \/ (exists e, snd (train L (init L) (sample_data now rng))
                 = Py.Returns (false, "Training failed: " ++ e)))
  /\ (forall msg,
        snd (train L (init L) (sample_data now rng)) = Py.Returns (false, msg) ->
        create_sample_model L now rng fs = (fs, Py.Returns false))
  /\ (snd (create_sample_model L now rng fs) = Py.Returns true ->
      is_fitted (fst (train L (init L) (sample_data now rng))) = true
      /\ load_model L s0 model_path (fst (create_sample_model L now rng fs))
         = (fst (train L (init L) (sample_data now rng)),
            (true, "Model loaded successfully"))).
Proof.
  intros Hrng. split; [| split].
  - destruct (sample_data_rows now rng Hrng) as [Hrows _].
    apply train_enough_rows; [reflexivity | lia].
  - intros msg Hmsg. unfold create_sample_model.
    destruct (train L (init L) (sample_data now rng)) as [s r]; simpl in *. now subst r.
  - destruct (create_sample_model_cases now rng fs Hrng) as [[-> Hflag] | [-> _]];
      simpl; [| discriminate].
    intros _. split; [exact Hflag |]. apply load_model_saved, lookup_insert_eq.
Qed.

(** X21. [load_ml_model] returns a forecaster only as [load_model] left
    it: whatever it returns is what the file at the model path now holds. A
    file that holds a saved forecaster is returned as it is, with no
    training and no write. When there is no file and the unit samples are
    not negative, the forecaster returned, if any, is the one trained on the
    sample data, with its flag up. *)
Theorem load_ml_model_result available now rng (fs : gmap string (File (Estimator L))) :
  (forall m,
      snd (load_ml_model L available now rng fs) = Some m ->
      fst (load_ml_model L available now rng fs) !! model_path
      = Some (Pickled (model_data L m)))
  /\ (forall s,
        fs !! model_path = Some (Pickled (model_data L s)) ->
        load_ml_model L true now rng fs = (fs, Some s))
  /\ (sound_rng rng ->
      fs !! model_path = None ->
      forall m,
        snd (load_ml_model L available now rng fs) = Some m ->
        m = fst (train L (init L) (sample_data now rng)) /\ is_fitted m = true).
Proof.
  split; [| split].
  - intros m. unfold load_ml_model. destruct available; simpl; [| discriminate].
    destruct (fs !! model_path) as [file |] eqn:Hfile.
    + pose proof (load_model_success (init L) model_path fs) as H1.
      destruct (load_model L (init L) model_path fs) as [m1 [ok1 msg1]]; simpl in *.
      destruct ok1; simpl.
      * intros [= <-]. now apply H1.
      * destruct (create_sample_model L now rng fs) as [fs' [[|] | e]]; simpl;
          try discriminate.
        pose proof (load_model_success m1 model_path fs') as H2.
        destruct (load_model L m1 model_path fs') as [m2 [ok2 msg2]]; simpl in *.
        destruct ok2; simpl; [| discriminate]. intros [= <-]. now apply H2.
    + simpl. destruct (create_sample_model L now rng fs) as [fs' [[|] | e]]; simpl;
        try discriminate.
      pose proof (load_model_success (init L) model_path fs') as H2.
      destruct (load_model L (init L) model_path fs') as [m2 [ok2 msg2]]; simpl in *.
      destruct ok2; simpl; [| discriminate]. intros [= <-]. now apply H2.
  - intros s Hfile. unfold load_ml_model. simpl. rewrite Hfile.
    now rewrite (load_model_saved s (init L) model_path fs Hfile).
  - intros Hrng Hnone m. unfold load_ml_model. destruct available; simpl; [| discriminate].
    rewrite Hnone. simpl.
    destruct (create_sample_model_cases now rng fs Hrng) as [[-> Hflag] | [-> _]];
      [| discriminate].
    rewrite (load_model_saved (fst (train L (init L) (sample_data now rng))) (init L)
               model_path _ (lookup_insert_eq _ _ _)).
    simpl. intros [= <-]. split; [reflexivity | exact Hflag].
Qed.

End SampleModelFacts.

Lemma sample_run_sound : sound_rng SampleRun.rng.
Proof. intros i _. simpl. discriminate. Qed.

Lemma sample_data_usable_witness :
  sound_rng SampleRun.rng
  /\ usable_rows (sample_data Toy.today SampleRun.rng) = 500%nat.
Proof.
  split; [exact sample_run_sound |].
  exact (proj1 (sample_data_usable Toy.today SampleRun.rng sample_run_sound)).
Defined.

Lemma create_sample_model_outcome_witness :
  sound_rng SampleRun.rng
  /\ snd (create_sample_model Toy.lib Toy.today SampleRun.rng ∅) = Py.Returns true
  /\ is_fitted (fst (train Toy.lib (init Toy.lib) (sample_data Toy.today SampleRun.rng)))
     = true.
Proof.
  assert (Hok : snd (create_sample_model Toy.lib Toy.today SampleRun.rng ∅)
                = Py.Returns true) by (vm_compute; reflexivity).
  split; [exact sample_run_sound |]. split; [exact Hok |].
  destruct (create_sample_model_outcome Toy.lib Toy.today SampleRun.rng (init Toy.lib) ∅
              sample_run_sound) as (_ & _ & Htrue).
  exact (proj1 (Htrue Hok)).
Defined.

Lemma load_ml_model_result_witness :
  let fs : gmap string (File (Estimator Toy.lib)) :=
    <[model_path := Pickled (model_data Toy.lib Toy.trained)]> ∅ in
  fs !! model_path = Some (Pickled (model_data Toy.lib Toy.trained))
  /\ load_ml_model Toy.lib true Toy.today SampleRun.rng fs = (fs, Some Toy.trained).
Proof.
  intros fs.
  assert (Hfile : fs !! model_path = Some (Pickled (model_data Toy.lib Toy.trained)))
    by apply lookup_insert_eq.
  split; [exact Hfile |].
  destruct (load_ml_model_result Toy.lib true Toy.today SampleRun.rng fs) as (_ & Hkeep & _).
  exact (Hkeep Toy.trained Hfile).
Defined.

(** ** The prediction page *)

Section PredictionPageFacts.

Context (L : Sklearn).

Lemma training_record_paired d c e i :
  is_Some (total_expense (training_record d c e i))
  /\ is_Some (total_income (training_record d c e i)).
Proof. split; eexists; reflexivity. Qed.

Lemma dated_records_paired entries : paired_format (dated_records entries).
Proof.
  unfold paired_format, dated_records. apply List.Forall_forall. intros r Hr.
  apply in_flat_map in Hr. destruct Hr as ([d expenses] & _ & Hr).
  apply in_flat_map in Hr. destruct Hr as (exp & _ & Hr).
  destruct (truthy (tx_category exp)); [| destruct Hr].
  destruct Hr as [<- | []]. apply training_record_paired.
Qed.

Lemma training_data_paired st : paired_format (training_data st).
Proof.
  unfold training_data, paired_format. rewrite !List.Forall_app.
  split; [apply dated_records_paired |]. split; [apply dated_records_paired |].
  apply List.Forall_forall. intros r Hr. apply in_map_iff in Hr.
  destruct Hr as (exp & <- & _). apply training_record_paired.
Qed.

(** X22. Every record the page builds from the stored entries carries
    both totals, so the totals branch of the preparation is always the one
    taken: the prepared frame is, up to order, one row per record and
    direction whose amount is positive, and an entry with a positive income
    and a positive expense is counted twice. The [transaction_type] the page
    computes is not read. *)
Theorem page_records_are_paired st :
  paired_format (training_data st)
  /\ match normalize (training_data st) with
     | Some rows => Permutation rows (flat_map split_record (training_data st))
     | None => flat_map split_record (training_data st) = []
     end.
Proof.
  pose proof (training_data_paired st) as Hpaired. split; [exact Hpaired |].
  destruct (training_data st) as [| r data]; [reflexivity |].
  destruct (paired_has_columns _ _ Hpaired) as [He Hi].
  now apply rows_of_total_columns.
Qed.

Lemma unique_categories_In data c :
  In c (unique_categories data) -> exists r, In r data /\ category r = c.
Proof.
  unfold unique_categories. intros Hin. apply list_elem_of_In in Hin.
  apply elem_of_elements, elem_of_list_to_set, list_elem_of_In in Hin.
  apply filter_In in Hin. destruct Hin as [Hin _]. apply in_map_iff in Hin.
  destruct Hin as (r & <- & Hr). eauto.
Qed.

(** X23. When the forecaster the page got is already trained, retraining
    it on the stored entries leaves its vocabulary as it was, and every
    forecast the page shows is for a category that is both stored and in
    that earlier vocabulary; if no stored category is in it, the page shows
    no forecast at all. *)
Theorem page_forecasts_old_vocabulary (model : ExpensePredictor L) now st :
  is_fitted model = true ->
  category_encoder (fst (generate_predictions L model now st)) = category_encoder model
  /\ forall message predictions,
      snd (generate_predictions L model now st) = Predictions message predictions ->
      predictions <> []
      /\ forall p,
          In p predictions ->
          In (p_category p) (category_encoder model)
          /\ exists r, In r (training_data st) /\ category r = p_category p.
Proof.
  intros Hflag. unfold generate_predictions.
  destruct (training_data st) as [| r data] eqn:Hdata; [split; [reflexivity | discriminate] |].
  destruct (train_fitted_keeps_encoder L model (r :: data) Hflag) as [Henc _].
  destruct (train L model (r :: data)) as [model' [[success message] | e]]; simpl in *;
    [| split; [exact Henc | discriminate]].
  destruct success; [| split; [exact Henc | discriminate]].
  destruct (predict_next_month L model' now (unique_categories (r :: data)))
    as [| p0 ps] eqn:Hps; simpl; [split; [exact Henc | discriminate] |].
  split; [exact Henc |]. intros message' predictions [= <- <-].
  split; [discriminate |]. intros p Hp. rewrite <- Hps in Hp.
  apply next_month_entry_known in Hp. destruct Hp as [Hcat Hknown].
  rewrite Henc in Hknown. split; [exact Hknown |].
  exact (unique_categories_In _ _ Hcat).
Qed.

Lemma sums_of_entries (s : ExpensePredictor L) now categories :
  map predicted_expense (predict_next_month L s now categories)
  = map predicted_income (predict_next_month L s now categories).
Proof.
  apply map_ext_in. intros p Hp.
  now destruct (next_month_entry_symmetric L s now categories p Hp).
Qed.

(** X24. In the summary of the forecasts of [predict_next_month], the
    predicted income and the predicted expense are the same total, so the
    predicted savings are zero. *)
Theorem summary_savings_are_zero (s : ExpensePredictor L) now categories :
  total_pred_expense (predict_next_month L s now categories)
  = total_pred_income (predict_next_month L s now categories)
  /\ (pred_savings (predict_next_month L s now categories) == 0)%Q.
Proof.
  assert (H : total_pred_expense (predict_next_month L s now categories)
              = total_pred_income (predict_next_month L s now categories)).
  { unfold total_pred_expense, total_pred_income. now rewrite sums_of_entries. }
  split; [exact H |]. unfold pred_savings. rewrite H. ring.
Qed.

End PredictionPageFacts.

Lemma page_forecasts_old_vocabulary_witness :
  is_fitted Toy.trained = true
  /\ category_encoder
       (fst (generate_predictions Toy.lib Toy.trained Toy.today Ledger.storage))
     = ["Food"]
  /\ snd (generate_predictions Toy.lib Toy.trained Toy.today Ledger.storage)
     = NoPredictions "Model trained successfully. MAE: 20033, R²: -1".
Proof.
  split; [reflexivity |].
  destruct (page_forecasts_old_vocabulary Toy.lib Toy.trained Toy.today Ledger.storage
              eq_refl) as [Henc _].
  split; [rewrite Henc; reflexivity | vm_compute; reflexivity].
Defined.

(** X25. Whatever the forecaster, the category, the direction and the
    month, [predict_category] returns an amount that is not negative and a
    confidence that is either 0, with the amount 0, or between 50 and 95. *)
Theorem predict_category_range (L : Sklearn) (s : ExpensePredictor L) now c t tm :
  (0 <= fst (predict_category L s now c t tm))%Q
  /\ (predict_category L s now c t tm = (0, 0)%Q
      \/ (50 <= snd (predict_category L s now c t tm) <= 95)%Q).
Proof.
  unfold predict_category.
  destruct (is_fitted s); simpl negb; cbv iota; [| split; [apply Qle_refl | now left]].
  destruct (LabelEncoder.mem c (category_encoder s)); simpl negb; cbv iota;
    [| split; [apply Qle_refl | now left]].
  destruct (create_features L s _) as [s' frame].
  destruct (select_columns (feature_columns s) _) as [X_pred | e];
    [| split; [apply Qle_refl | now left]].
  destruct (predict L (model s) X_pred) as [[| prediction rest] | e];
    try (split; [apply Qle_refl | now left]).
  destruct (feature_importances_ L (model s)) as [importance | e];
    [| split; [apply Qle_refl | now left]].
  simpl. split; [apply py_max_lower | right; apply confidence_bounds].
Qed.
